(** * cdk-constructs: the ExternalSecret facade and the ProtectedCloudfront stack

    A shallow embedding of
      - [ca_cdk_constructs/eks/external_secrets/external_secret.py]
      - [cdk_constructs/protected_cloudfront.py]
    Python exceptions are results of type [result]; the construct tree that
    the constructors mutate is a store of children keyed by construct id. *)

From stdpp Require Import base option list strings gmap pretty.
From Stdlib Require Import ZArith Ascii.

Local Open Scope string_scope.
Local Open Scope Z_scope.

(** ** Python values and exceptions *)

Module Py.

Inductive exn : Type :=
| KeyError (key : string)
| IndexError
| AttributeError (attribute : string)
| DuplicateConstruct (id : string).

Inductive result (A : Type) : Type :=
| Ok (a : A)
| Raise (e : exn).
Global Arguments Ok {A} a.
Global Arguments Raise {A} e.

Global Instance result_ret : MRet result := fun _ a => Ok a.
Global Instance result_bind : MBind result := fun _ _ f m =>
  match m with
  | Ok a => f a
  | Raise e => Raise e
  end.

Definition is_Ok {A} (r : result A) : Prop := exists a, r = Ok a.

(** A value an untyped [dict] may hold, with the text an f-string
    substitutes for it. *)
Inductive value : Type :=
| VStr (s : string)
| VInt (z : Z)
| VBool (b : bool)
| VNone.

Definition format (v : value) : string :=
  match v with
  | VStr s => s
  | VInt z => pretty z
  | VBool true => "True"
  | VBool false => "False"
  | VNone => "None"
  end.

(** [str(s)] of a [str]. *)
Definition str (s : string) : string := s.

(** Truth value of a [str]: every string but the empty one. *)
Definition truthy (s : string) : bool :=
  match s with
  | EmptyString => false
  | String _ _ => true
  end.

(** [v or e]: [e] is evaluated only when [v] is falsy. *)
Definition or_else (v : string) (e : result string) : result string :=
  if truthy v then Ok v else e.

(** [s.split(sep)] for a separator of one character. *)
Fixpoint split (sep : ascii) (s : string) : list string :=
  match s with
  | EmptyString => [EmptyString]
  | String c s' =>
      if Ascii.eqb c sep then EmptyString :: split sep s'
      else match split sep s' with
           | w :: ws => String c w :: ws
           | [] => [String c EmptyString]
           end
  end.

(** [l[i]], with negative indices counted from the end. *)
Definition index {A} (l : list A) (i : Z) : result A :=
  let n := Z.of_nat (List.length l) in
  let j := if i <? 0 then i + n else i in
  if (j <? 0) || (n <=? j) then Raise IndexError
  else match l !! Z.to_nat j with
       | Some x => Ok x
       | None => Raise IndexError
       end.

(** [d[k]] of a dict of which only the lookups are observed. *)
Definition getitem {V} (d : gmap string V) (k : string) : result V :=
  match d !! k with
  | Some v => Ok v
  | None => Raise (KeyError k)
  end.

(** The dict display [{k1: v1, k2: v2, ...}] of such a dict: a later entry
    replaces an earlier one with the same key. *)
Definition display {V} (entries : list (string * V)) : gmap string V :=
  foldl (fun d kv => <[kv.1 := kv.2]> d) ∅ entries.

(** A dict that is iterated: its entries in insertion order.  Storing
    under a key that is present replaces the value where it stands. *)
Fixpoint setitem {V} (k : string) (v : V) (d : list (string * V))
  : list (string * V) :=
  match d with
  | [] => [(k, v)]
  | (k', v') :: d' =>
      if String.eqb k k' then (k', v) :: d' else (k', v') :: setitem k v d'
  end.

(** The dict display [{k1: v1, k2: v2, ...}] of a dict that is iterated. *)
Definition dict_of {V} (entries : list (string * V)) : list (string * V) :=
  foldl (fun d kv => setitem kv.1 kv.2 d) [] entries.

Definition items {V} (d : list (string * V)) : list (string * V) := d.

(** Reading an attribute, which may not have been assigned yet. *)
Definition getattr {A} (name : string) (slot : option A) : result A :=
  match slot with
  | Some a => Ok a
  | None => Raise (AttributeError name)
  end.

End Py.
Import Py.

(** The character the keys and domains are split on. *)
Definition dot : ascii := "."%char.

(** ** The construct tree *)

(** The scope a construct is created in: its path and the ids in use. *)
Record Scope : Type := {
  scope_path : string;
  scope_children : list string
}.

(** [Construct.__init__(scope, id)]: an id can be used once per scope. *)
Definition Construct_init (scope : Scope) (id : string) : result string :=
  if bool_decide (id ∈ scope_children scope) then Raise (DuplicateConstruct id)
  else Ok (scope_path scope +:+ "/" +:+ id).

(** ** external_secret.py *)

Module ExternalSecrets.

(** [@define class ExternalSecretSource] *)
Record ExternalSecretSource : Type := {
  source_secret : string;
  k8s_secret_name : string;
  secret_mappings : list (string * string);
  refresh_interval : string
}.

(** The generated attrs constructor: [refresh_interval] defaults to "1h". *)
Definition mkExternalSecretSource (source_secret k8s_secret_name : string)
    (secret_mappings : list (string * string))
    (refresh_interval : option string) : ExternalSecretSource :=
  {| source_secret := source_secret;
     k8s_secret_name := k8s_secret_name;
     secret_mappings := secret_mappings;
     refresh_interval := default "1h" refresh_interval |}.

(** Modelled from the spec: the classes of
    [ca_cdk_constructs.eks.imports.io.external_secrets], which are
    generated and not part of the sources; the fields are those of section 6
    ([spec.secretStoreRef], [spec.refreshInterval], [spec.target.name],
    [spec.data[].remoteRef.{key,property}], [spec.data[].secretKey]). *)
Record ExternalSecretV1Beta1SpecSecretStoreRef : Type := {
  store_ref_name : string;
  store_ref_kind : string
}.

(** Modelled from the spec: [spec.data[].remoteRef] of the generated
    classes. *)
Record ExternalSecretV1Beta1SpecDataRemoteRef : Type := {
  key : string;
  property : string
}.

(** Modelled from the spec: [spec.target] of the generated classes. *)
Record ExternalSecretV1Beta1SpecTarget : Type := {
  target_name : string
}.

(** Modelled from the spec: [spec.data[]] of the generated classes. *)
Record ExternalSecretV1Beta1SpecData : Type := {
  remote_ref : ExternalSecretV1Beta1SpecDataRemoteRef;
  secret_key : string
}.

(** Modelled from the spec: [spec] of the generated classes. *)
Record ExternalSecretV1Beta1Spec : Type := {
  secret_store_ref : ExternalSecretV1Beta1SpecSecretStoreRef;
  spec_refresh_interval : string;
  target : ExternalSecretV1Beta1SpecTarget;
  data : list ExternalSecretV1Beta1SpecData
}.

(** [cdk8s.ApiObjectMetadata], or the dict given in its place. *)
Record ApiObjectMetadata : Type := {
  metadata_name : option string;
  annotations : gmap string string;
  labels : gmap string string
}.

(** The default [metadata = {}]. *)
Definition no_metadata : ApiObjectMetadata :=
  {| metadata_name := None; annotations := ∅; labels := ∅ |}.

(** Modelled from the spec: the generated resource class itself, an API
    object holding its metadata and its spec. *)
Record ExternalSecretV1Beta1 : Type := {
  metadata : ApiObjectMetadata;
  spec : ExternalSecretV1Beta1Spec
}.

(** [class ExternalSecret(Construct)]: the private attribute and the
    children created under the construct, by id. *)
Record ExternalSecret : Type := {
  node_path : string;
  _k8s_secret_name : string;
  children : list (string * ExternalSecretV1Beta1)
}.

(** One element of the comprehension at lines 92-104. *)
Definition data_entry (secret_source : ExternalSecretSource)
    (kv : string * string) : result ExternalSecretV1Beta1SpecData :=
  let '(k, v) := kv in
  secret_key ← or_else v (index (split dot (str k)) (-1));
  mret {| remote_ref := {| key := source_secret secret_source;
                           property := k |};
          secret_key := secret_key |}.

(** [ExternalSecret.__init__] *)
Definition ExternalSecret_init (scope : Scope) (id : string)
    (store_name : string) (secret_source : ExternalSecretSource)
    (metadata : ApiObjectMetadata) : result ExternalSecret :=
  path ← Construct_init scope id;
  let _k8s_secret_name := k8s_secret_name secret_source in
  data ← mapM (data_entry secret_source)
              (items (secret_mappings secret_source));
  let resource :=
    {| metadata := metadata;
       spec := {| secret_store_ref := {| store_ref_name := store_name;
                                         store_ref_kind := "SecretStore" |};
                  spec_refresh_interval := refresh_interval secret_source;
                  target := {| target_name := k8s_secret_name secret_source |};
                  data := data |} |} in
  mret {| node_path := path;
          _k8s_secret_name := _k8s_secret_name;
          children := [("Resource", resource)] |}.

(** The [k8s_secret_name] property. *)
Definition get_k8s_secret_name (self : ExternalSecret) : string :=
  _k8s_secret_name self.

(** The resource the construct emitted: its child "Resource". *)
Definition emitted (self : ExternalSecret) : option ExternalSecretV1Beta1 :=
  snd <$> List.find (fun c => String.eqb (fst c) "Resource") (children self).

End ExternalSecrets.


(** ** protected_cloudfront.py *)

Module Cloudfront.

(** A string handed to a resource: known at synthesis, or standing for
    an attribute of a construct of the tree that deployment fills in. *)
Inductive token : Type :=
| Literal (s : string)
| Attribute (construct : string) (name : string)
| GENERATE_IF_NEEDED.

Record Environment : Type := {
  account : option string;
  region : option string
}.

(** [r53.HostedZone], received from the caller. *)
Record HostedZone : Type := {
  hosted_zone_id : string;
  zone_name : string
}.

Module RemovalPolicy.
Inductive t : Type := DESTROY | RETAIN | SNAPSHOT.
End RemovalPolicy.

Module Duration.
Inductive t : Type := days (amount : Z).
End Duration.

Record LifecycleRule : Type := {
  enabled : bool;
  expiration : Duration.t
}.

Record Bucket : Type := {
  bucket_name : token;
  removal_policy : RemovalPolicy.t;
  lifecycle_rules : list LifecycleRule
}.

(** Modelled from the spec: [cdk_constructs.waf.WafStack], which is not part
    of the sources; a sub-stack that keeps the parameter set, the logging
    switch and the environment it is given. *)
Record WafStack : Type := {
  log_requests : bool;
  params : gmap string token;
  waf_env : Environment
}.

(** [cdk_remote_stack.RemoteOutputs]: the stack whose outputs are fetched. *)
Record RemoteOutputs : Type := {
  remote_stack : string
}.

Record DnsValidatedCertificate : Type := {
  certificate_domain_name : string;
  certificate_region : string;
  certificate_hosted_zone : HostedZone
}.

Record HttpOrigin : Type := {
  origin_domain_name : string;
  custom_headers : gmap string string
}.

Module OriginRequestHeaderBehavior.
Inductive t : Type := none | all | allow_list (headers : list string).
End OriginRequestHeaderBehavior.

Module OriginRequestCookieBehavior.
Inductive t : Type := none | all | allow_list (cookies : list string).
End OriginRequestCookieBehavior.

Module OriginRequestQueryStringBehavior.
Inductive t : Type := none | all | allow_list (query_strings : list string).
End OriginRequestQueryStringBehavior.

Record OriginRequestPolicyProps : Type := {
  policy_comment : string;
  header_behavior : OriginRequestHeaderBehavior.t;
  cookie_behavior : OriginRequestCookieBehavior.t;
  query_string_behavior : OriginRequestQueryStringBehavior.t
}.

(** A managed origin request policy, or one created in the tree. *)
Module OriginRequestPolicy.
Inductive t : Type :=
| ALL_VIEWER
| CORS_CUSTOM_ORIGIN
| CORS_S3_ORIGIN
| ELEMENTAL_MEDIA_TAILOR
| USER_AGENT_REFERER_HEADERS
| created (construct : string).
End OriginRequestPolicy.

Module CachePolicy.
Inductive t : Type :=
| AMPLIFY
| CACHING_DISABLED
| CACHING_OPTIMIZED
| CACHING_OPTIMIZED_FOR_UNCOMPRESSED_OBJECTS
| ELEMENTAL_MEDIA_PACKAGE.
End CachePolicy.

Module AllowedMethods.
Inductive t : Type := ALLOW_ALL | ALLOW_GET_HEAD | ALLOW_GET_HEAD_OPTIONS.
End AllowedMethods.

Module CachedMethods.
Inductive t : Type := CACHE_GET_HEAD | CACHE_GET_HEAD_OPTIONS.
End CachedMethods.

Module ViewerProtocolPolicy.
Inductive t : Type := ALLOW_ALL | HTTPS_ONLY | REDIRECT_TO_HTTPS.
End ViewerProtocolPolicy.

Record BehaviorOptions : Type := {
  origin : HttpOrigin;
  compress : bool;
  cache_policy : CachePolicy.t;
  origin_request_policy : OriginRequestPolicy.t;
  allowed_methods : AllowedMethods.t;
  cached_methods : CachedMethods.t;
  viewer_protocol_policy : ViewerProtocolPolicy.t
}.

Module GeoRestriction.
Inductive restriction_type : Type := whitelist | blacklist.
Record t : Type := {
  restriction : restriction_type;
  locations : list string
}.
Definition allowlist (locations : list string) : t :=
  {| restriction := whitelist; locations := locations |}.
Definition denylist (locations : list string) : t :=
  {| restriction := blacklist; locations := locations |}.
End GeoRestriction.

(** [cloudfront.Distribution]: the constructor's arguments, the behaviors
    added afterwards by path pattern, and the constructs it depends on. *)
Record Distribution : Type := {
  domain_names : list string;
  enable_logging : bool;
  log_bucket : string;
  certificate : string;
  web_acl_id : token;
  distribution_comment : string;
  geo_restriction : GeoRestriction.t;
  default_behavior : BehaviorOptions;
  additional_behaviors : list (string * BehaviorOptions);
  dependencies : list string
}.

Inductive AliasTarget : Type :=
| CloudFrontTarget (distribution : string).

Module RecordTarget.
Inductive t : Type :=
| from_alias (alias : AliasTarget)
| from_values (values : list string).
End RecordTarget.

Record ARecord : Type := {
  zone : HostedZone;
  record_name : string;
  record_target : RecordTarget.t
}.

Record CfnOutput : Type := {
  output_value : token
}.

(** What a child of the stack can be. *)
Inductive resource : Type :=
| ABucket (b : Bucket)
| AWafStack (w : WafStack)
| ARemoteOutputs (o : RemoteOutputs)
| ACertificate (c : DnsValidatedCertificate)
| AnOriginRequestPolicy (p : OriginRequestPolicyProps)
| ADistribution (d : Distribution)
| AnOutput (o : CfnOutput)
| AnARecord (r : ARecord).

(** The keyword arguments passed on to [Stack]; [stack_name] is the name
    the base class settles on for the stack. *)
Record StackProps : Type := {
  props_stack_name : string;
  props_env : option Environment
}.

(** [class ProtectedCloudfrontStack(Stack)]: what the base class holds (the
    path, the name, the children in the order of their creation) and the
    attributes the constructor assigns; a construct of the tree is
    referred to by its id. *)
Record ProtectedCloudfrontStack : Type := {
  node_path : string;
  stack_name : string;
  children : list (string * resource);
  context : option (gmap string value);
  env_name : option value;
  secret_header : option string;
  _cdn : option string
}.

Definition SECRET_HEADER_NAME : string := "X-Secret-CF-ALB-Header".

(** *** The children of the stack *)

Definition set_children (self : ProtectedCloudfrontStack)
    (cs : list (string * resource)) : ProtectedCloudfrontStack :=
  {| node_path := node_path self; stack_name := stack_name self;
     children := cs; context := context self; env_name := env_name self;
     secret_header := secret_header self; _cdn := _cdn self |}.

Definition set_context (self : ProtectedCloudfrontStack)
    (c : gmap string value) : ProtectedCloudfrontStack :=
  {| node_path := node_path self; stack_name := stack_name self;
     children := children self; context := Some c; env_name := env_name self;
     secret_header := secret_header self; _cdn := _cdn self |}.

Definition set_env_name (self : ProtectedCloudfrontStack)
    (v : value) : ProtectedCloudfrontStack :=
  {| node_path := node_path self; stack_name := stack_name self;
     children := children self; context := context self; env_name := Some v;
     secret_header := secret_header self; _cdn := _cdn self |}.

Definition set_secret_header (self : ProtectedCloudfrontStack)
    (h : string) : ProtectedCloudfrontStack :=
  {| node_path := node_path self; stack_name := stack_name self;
     children := children self; context := context self;
     env_name := env_name self; secret_header := Some h; _cdn := _cdn self |}.

Definition set_cdn (self : ProtectedCloudfrontStack)
    (cdn : string) : ProtectedCloudfrontStack :=
  {| node_path := node_path self; stack_name := stack_name self;
     children := children self; context := context self;
     env_name := env_name self; secret_header := secret_header self;
     _cdn := Some cdn |}.

(** The child created under [id], if any. *)
Definition child (self : ProtectedCloudfrontStack) (id : string)
  : option resource :=
  snd <$> List.find (fun c => String.eqb (fst c) id) (children self).

(** Creating a construct with [self] as its scope: the id must be new. *)
Definition add_child (id : string) (r : resource)
    (self : ProtectedCloudfrontStack) : result ProtectedCloudfrontStack :=
  match child self id with
  | Some _ => Raise (DuplicateConstruct id)
  | None => Ok (set_children self (children self ++ [(id, r)])%list)
  end.

(** [Stack.__init__(scope, construct_id, **kwargs)] *)
Definition Stack_init (scope : Scope) (construct_id : string)
    (kwargs : StackProps) : result ProtectedCloudfrontStack :=
  path ← Construct_init scope construct_id;
  mret {| node_path := path; stack_name := props_stack_name kwargs;
          children := []; context := None; env_name := None;
          secret_header := None; _cdn := None |}.

(** An update in place of the distribution created under [id]: every
    holder of the reference sees it. *)
Definition update_distribution (id : string) (f : Distribution -> Distribution)
    (self : ProtectedCloudfrontStack) : ProtectedCloudfrontStack :=
  set_children self
    (List.map (fun c => match c with
                        | (id', ADistribution d) =>
                            if String.eqb id' id then (id', ADistribution (f d))
                            else c
                        | _ => c
                        end) (children self)).

(** [cdn.add_behavior(path_pattern, origin, ...)] *)
Definition add_behavior (cdn : string) (path_pattern : string)
    (options : BehaviorOptions) (self : ProtectedCloudfrontStack)
  : ProtectedCloudfrontStack :=
  update_distribution cdn
    (fun d =>
       {| domain_names := domain_names d;
          enable_logging := enable_logging d;
          log_bucket := log_bucket d;
          certificate := certificate d;
          web_acl_id := web_acl_id d;
          distribution_comment := distribution_comment d;
          geo_restriction := geo_restriction d;
          default_behavior := default_behavior d;
          additional_behaviors :=
            (additional_behaviors d ++ [(path_pattern, options)])%list;
          dependencies := dependencies d |}) self.

(** [cdn.node.add_dependency(other)] *)
Definition add_dependency (cdn : string) (other : string)
    (self : ProtectedCloudfrontStack) : ProtectedCloudfrontStack :=
  update_distribution cdn
    (fun d =>
       {| domain_names := domain_names d;
          enable_logging := enable_logging d;
          log_bucket := log_bucket d;
          certificate := certificate d;
          web_acl_id := web_acl_id d;
          distribution_comment := distribution_comment d;
          geo_restriction := geo_restriction d;
          default_behavior := default_behavior d;
          additional_behaviors := additional_behaviors d;
          dependencies := (dependencies d ++ [other])%list |}) self.

(** [RemoteOutputs.get(key)]: an attribute of the lookup construct. *)
Definition RemoteOutputs_get (outputs : string) (key : string) : token :=
  Attribute outputs key.

(** *** The methods *)

(** [secretHeaderValue] *)
Definition secretHeaderValue (self : ProtectedCloudfrontStack)
  : result string :=
  getattr "secret_header" (secret_header self).

(** [secretHeader] *)
Definition secretHeader (self : ProtectedCloudfrontStack)
  : result (gmap string string) :=
  h ← getattr "secret_header" (secret_header self);
  mret (display [(SECRET_HEADER_NAME, h)]).

(** [cdn]: the distribution the attribute [_cdn] refers to. *)
Definition cdn (self : ProtectedCloudfrontStack) : result Distribution :=
  ref ← getattr "_cdn" (_cdn self);
  match child self ref with
  | Some (ADistribution d) => Ok d
  | _ => Raise (AttributeError "_cdn")
  end.

(** *** The constructor *)

(** [ProtectedCloudfrontStack.__init__] *)
Definition ProtectedCloudfrontStack_init (scope : Scope)
    (construct_id : string) (hosted_zone : HostedZone)
    (domain origin_domain : string) (env_context : gmap string value)
    (kwargs : StackProps) : result ProtectedCloudfrontStack :=
  self ← Stack_init scope construct_id kwargs;
  let self := set_context self env_context in
  the_context ← getattr "context" (context self);
  the_env_name ← getitem the_context "env_name";
  let self := set_env_name self the_env_name in
  let us_east_environment :=
    {| account := None; region := Some "us-east-1" |} in
  self ← add_child "CloudfrontLogBucket"
           (ABucket
              {| bucket_name := GENERATE_IF_NEEDED;
                 removal_policy := RemovalPolicy.DESTROY;
                 lifecycle_rules :=
                   [ {| enabled := true;
                        expiration := Duration.days (31 * 6) |} ] |}) self;
  let access_logs_bucket := "CloudfrontLogBucket" in
  self ← add_child "WafStack"
           (AWafStack
              {| log_requests := false;
                 params :=
                   display
                     [ ("ActivateAWSManagedRulesParam", Literal "True");
                       ("ActivateSqlInjectionProtectionParam", Literal "True");
                       ("ActivateCrossSiteScriptingProtectionParam",
                         Literal "True");
                       ("ActivateHttpFloodProtectionParam", Literal "True");
                       ("ActivateScannersProbesProtectionParam",
                         Literal "True");
                       ("ActivateReputationListsProtectionParam",
                         Literal "True");
                       ("ActivateBadBotProtectionParam", Literal "False");
                       ("AppAccessLogBucket",
                         Attribute access_logs_bucket "bucket_name") ];
                 waf_env := us_east_environment |}) self;
  let waf := "WafStack" in
  self ← add_child "Outputs" (ARemoteOutputs {| remote_stack := waf |}) self;
  let waf_outputs := "Outputs" in
  the_env_name ← getattr "env_name" (env_name self);
  let self :=
    set_secret_header self (format the_env_name +:+ "-" +:+ stack_name self) in
  self ← add_child "CloudfrontCertificate"
           (ACertificate
              {| certificate_domain_name := domain;
                 certificate_region := "us-east-1";
                 certificate_hosted_zone := hosted_zone |}) self;
  let certificate := "CloudfrontCertificate" in
  headers ← secretHeader self;
  let http_origin :=
    {| origin_domain_name := origin_domain; custom_headers := headers |} in
  self ← add_child "StaticAssetsOriginRequestPolicy"
           (AnOriginRequestPolicy
              {| policy_comment := "Forward the Host header for assets";
                 header_behavior :=
                   OriginRequestHeaderBehavior.allow_list ["Host"];
                 cookie_behavior := OriginRequestCookieBehavior.none;
                 query_string_behavior :=
                   OriginRequestQueryStringBehavior.none |}) self;
  let assets_origin_request_policy :=
    OriginRequestPolicy.created "StaticAssetsOriginRequestPolicy" in
  self ← add_child "CdnDistribution"
           (ADistribution
              {| domain_names := [domain];
                 enable_logging := true;
                 log_bucket := access_logs_bucket;
                 certificate := certificate;
                 web_acl_id := RemoteOutputs_get waf_outputs "WAFWebACLArn";
                 distribution_comment := "CDN for " +:+ stack_name self;
                 geo_restriction :=
                   GeoRestriction.allowlist ["GB"; "JE"; "GG"];
                 default_behavior :=
                   {| origin := http_origin;
                      compress := true;
                      cache_policy := CachePolicy.CACHING_DISABLED;
                      origin_request_policy := OriginRequestPolicy.ALL_VIEWER;
                      allowed_methods := AllowedMethods.ALLOW_ALL;
                      cached_methods := CachedMethods.CACHE_GET_HEAD;
                      viewer_protocol_policy :=
                        ViewerProtocolPolicy.REDIRECT_TO_HTTPS |};
                 additional_behaviors := [];
                 dependencies := [] |}) self;
  let cdn := "CdnDistribution" in
  let self :=
    add_behavior cdn "/assets/*"
      {| origin := http_origin;
         compress := true;
         cache_policy := CachePolicy.CACHING_OPTIMIZED;
         origin_request_policy := assets_origin_request_policy;
         allowed_methods := AllowedMethods.ALLOW_GET_HEAD;
         cached_methods := CachedMethods.CACHE_GET_HEAD;
         viewer_protocol_policy := ViewerProtocolPolicy.REDIRECT_TO_HTTPS |}
      self in
  let self := add_dependency cdn waf self in
  let self := set_cdn self cdn in
  self ← add_child "CloudfrontDistributionId"
           (AnOutput {| output_value := Attribute cdn "distribution_id" |})
           self;
  self ← add_child "CloudfrontDistributionDomain"
           (AnOutput
              {| output_value := Attribute cdn "distribution_domain_name" |})
           self;
  the_secret_header ← getattr "secret_header" (secret_header self);
  self ← add_child "SecretHeaderArn"
           (AnOutput {| output_value := Literal the_secret_header |}) self;
  domain_prefix ← index (split dot domain) 0;
  let alias := CloudFrontTarget cdn in
  self ← add_child "CloudfrontDNS"
           (AnARecord
              {| zone := hosted_zone;
                 record_name := domain_prefix;
                 record_target := RecordTarget.from_alias alias |}) self;
  mret self.

(** *** What the stack emitted *)

(** The stack outputs, by logical id, in the order of their creation. *)
Definition outputs (self : ProtectedCloudfrontStack)
  : list (string * token) :=
  omap (fun c => match c with
                 | (id, AnOutput o) => Some (id, output_value o)
                 | _ => None
                 end) (children self).

(** The value of the output emitted under a logical id. *)
Definition output (self : ProtectedCloudfrontStack) (id : string)
  : option token :=
  snd <$> List.find (fun o => String.eqb (fst o) id) (outputs self).

(** The DNS records of the stack. *)
Definition records (self : ProtectedCloudfrontStack) : list ARecord :=
  omap (fun c => match c with
                 | (_, AnARecord r) => Some r
                 | _ => None
                 end) (children self).

(** The behavior a distribution applies to a path pattern added to it. *)
Definition behavior (d : Distribution) (path_pattern : string)
  : option BehaviorOptions :=
  snd <$> List.find (fun b => String.eqb (fst b) path_pattern)
            (additional_behaviors d).

End Cloudfront.

(** ** The words of the specification *)

(** [c in s] *)
Fixpoint contains (c : ascii) (s : string) : bool :=
  match s with
  | EmptyString => false
  | String c' s' => Ascii.eqb c' c || contains c s'
  end.

(** "The substring of [s] after its last [c]": [r] has no [c] and is what
    follows a [c] of [s]; it is all of [s] when [s] is free of [c]. *)
Definition after_last (c : ascii) (s r : string) : Prop :=
  contains c r = false /\ (s = r \/ exists p, s = p +:+ String c r).

(** "The first [c]-separated label of [s]": [r] has no [c] and is what
    precedes a [c] of [s]; it is all of [s] when [s] is free of [c]. *)
Definition first_label (c : ascii) (s r : string) : Prop :=
  contains c r = false /\ (s = r \/ exists q, s = r +:+ String c q).

(** ** Inputs to run the constructors on *)

Definition app_scope : Scope :=
  {| scope_path := "app"; scope_children := ["other"] |}.

Definition db_source : ExternalSecrets.ExternalSecretSource :=
  ExternalSecrets.mkExternalSecretSource "secret-1" "app-secret2"
    (dict_of [("K.S", ""); ("K2", "T2")]) None.

Definition qa_zone : Cloudfront.HostedZone :=
  {| Cloudfront.hosted_zone_id := "Z0123456789";
     Cloudfront.zone_name := "example.com" |}.

Definition qa_context : gmap string value :=
  display [("env_name", VStr "qa"); ("account", VInt 42)].

Definition qa_props : Cloudfront.StackProps :=
  {| Cloudfront.props_stack_name := "qaCaReferrals-cloudfront";
     Cloudfront.props_env := None |}.

(** ** Results and lists *)

Lemma bind_Ok {A B : Type} (f : A -> result B) (m : result A) (b : B) :
  m ≫= f = Ok b <-> exists a, m = Ok a /\ f a = Ok b.
Proof.
  destruct m as [a|e]; simpl; split.
  - intros H. by exists a.
  - by intros (a' & [= ->] & H).
  - intros [=].
  - by intros (a' & [=] & _).
Qed.

Section results.
Context {A B : Type}.

Lemma mapM_Ok (f : A -> result B) (l : list A) (k : list B) :
  mapM f l = Ok k <-> Forall2 (fun x y => f x = Ok y) l k.
Proof.
  revert k. induction l as [|x l IH]; intros k; simpl.
  - split.
    + intros [= <-]. constructor.
    + intros H. by inversion H.
  - split.
    + intros H. apply bind_Ok in H as (y & Hy & Hk).
      apply bind_Ok in Hk as (k' & Hk' & [= <-]).
      constructor; [done | by apply IH].
    + intros H. inversion H as [|? y ? k' Hy Hk']; subst.
      apply bind_Ok. exists y. split; [done |]. apply bind_Ok. exists k'.
      split; [by apply IH | done].
Qed.

Lemma mapM_is_Ok (f : A -> result B) (l : list A) :
  (forall x, is_Ok (f x)) -> is_Ok (mapM f l).
Proof.
  intros Hf. induction l as [|x l [k Hk]]; simpl.
  - by exists [].
  - destruct (Hf x) as [y Hy]. exists (y :: k). rewrite Hy. simpl.
    rewrite Hk. done.
Qed.

Lemma index_last (l : list A) :
  index l (-1) = from_option Ok (Raise IndexError) (last l).
Proof.
  rewrite last_lookup. destruct l as [|x l]; [done |].
  unfold index. change (-1 <? 0) with true. cbv iota.
  set (n := Z.of_nat (length (x :: l))).
  assert (Hn : -1 + n = Z.of_nat (length l)) by (subst n; simpl length; lia).
  rewrite Hn.
  destruct (Z.ltb_spec (Z.of_nat (length l)) 0) as [|_]; [lia |].
  destruct (Z.leb_spec n (Z.of_nat (length l))) as [|_]; [lia |].
  rewrite Nat2Z.id. simpl.
  by destruct ((x :: l) !! length l).
Qed.

Lemma index_first (l : list A) :
  index l 0 = from_option Ok (Raise IndexError) (head l).
Proof. by destruct l. Qed.

End results.

(** ** Splitting a string *)

Section splitting.
Variable c : ascii.

Lemma split_cons (s : string) : exists w ws, split c s = w :: ws.
Proof.
  destruct s as [|a s]; simpl; [by eauto |].
  destruct (Ascii.eqb a c); [by eauto |].
  destruct (split c s); eauto.
Qed.

Lemma split_free (s : string) : contains c s = false -> split c s = [s].
Proof.
  induction s as [|a s IH]; simpl; [done |].
  intros [Ha Hs]%orb_false_iff. rewrite Ha, (IH Hs). done.
Qed.

Lemma split_at (p r : string) :
  split c (p +:+ String c r) = (split c p ++ split c r)%list.
Proof.
  induction p as [|a p IH]; simpl.
  - by rewrite Ascii.eqb_refl.
  - rewrite IH. destruct (Ascii.eqb a c); [done |].
    by destruct (split_cons p) as (w & ws & ->).
Qed.

Lemma last_occurrence (s : string) :
  contains c s = true ->
  exists p r, s = p +:+ String c r /\ contains c r = false.
Proof.
  induction s as [|a s IH]; simpl; [done |].
  destruct (contains c s) eqn:Hs.
  - intros _. destruct IH as (p & r & -> & Hr); [done |].
    by exists (String a p), r.
  - rewrite orb_false_r. intros ->%Ascii.eqb_eq. by exists "", s.
Qed.

Lemma first_occurrence (s : string) :
  contains c s = true ->
  exists r q, s = r +:+ String c q /\ contains c r = false.
Proof.
  induction s as [|a s IH]; simpl; [done |].
  destruct (Ascii.eqb a c) eqn:Ha.
  - intros _. apply Ascii.eqb_eq in Ha as ->. by exists "", s.
  - simpl. intros Hs. destruct (IH Hs) as (r & q & -> & Hr).
    exists (String a r), q. simpl. by rewrite Ha, Hr.
Qed.

(** The last element of [s.split(c)] is the substring after the last [c],
    and nothing else is. *)
Lemma last_split (s r : string) :
  last (split c s) = Some r <-> after_last c s r.
Proof.
  split.
  - destruct (contains c s) eqn:Hs.
    + destruct (last_occurrence s Hs) as (p & r' & -> & Hr').
      rewrite split_at, (split_free r' Hr'), last_snoc.
      intros [= <-]. split; [done | right; by exists p].
    + rewrite (split_free s Hs). intros [= <-]. split; [done | by left].
  - intros [Hr [-> | [p ->]]].
    + by rewrite (split_free r Hr).
    + by rewrite split_at, (split_free r Hr), last_snoc.
Qed.

(** The first element of [s.split(c)] is the first label, and nothing else
    is. *)
Lemma head_split (s r : string) :
  head (split c s) = Some r <-> first_label c s r.
Proof.
  split.
  - destruct (contains c s) eqn:Hs.
    + destruct (first_occurrence s Hs) as (r' & q & -> & Hr').
      rewrite split_at, (split_free r' Hr'). simpl.
      intros [= <-]. split; [done | right; by exists q].
    + rewrite (split_free s Hs). intros [= <-]. split; [done | by left].
  - intros [Hr [-> | [q ->]]].
    + by rewrite (split_free r Hr).
    + by rewrite split_at, (split_free r Hr).
Qed.

(** Neither index can fail on the result of a split. *)
Lemma index_last_split (s : string) :
  exists r, index (split c s) (-1) = Ok r /\ after_last c s r.
Proof.
  rewrite index_last. destruct (split_cons s) as (w & ws & Hs).
  destruct (last (split c s)) as [r|] eqn:Hr.
  - exists r. split; [done | by apply last_split].
  - rewrite Hs in Hr. by apply last_None in Hr.
Qed.

Lemma index_first_split (s : string) :
  exists r, index (split c s) 0 = Ok r /\ first_label c s r.
Proof.
  rewrite index_first. destruct (split_cons s) as (w & ws & Hs).
  exists w. split; [by rewrite Hs |]. apply head_split. by rewrite Hs.
Qed.

End splitting.

(** ** The ExternalSecret facade *)

Module ExternalSecretFacts.
Import ExternalSecrets.

Lemma app_scope_fresh : "dbSecret" ∉ scope_children app_scope.
Proof. apply (bool_decide_unpack _). vm_compute. exact I. Defined.

(** What one element of the comprehension evaluates to. *)
Lemma data_entry_Ok (src : ExternalSecretSource) (k v : string) :
  exists d, data_entry src (k, v) = Ok d /\
    key (remote_ref d) = source_secret src /\
    property (remote_ref d) = k /\
    (v <> "" -> secret_key d = v) /\
    (v = "" -> after_last dot k (secret_key d)).
Proof.
  unfold data_entry, or_else, str. destruct v as [|a v]; simpl.
  - destruct (index_last_split dot k) as (r & -> & Hr). simpl.
    eexists. split; [done |]. simpl.
    split; [done |]. split; [done |]. split; [by intros [] | done].
  - eexists. split; [done |]. simpl.
    split; [done |]. split; [done |]. split; [done | by intros [=]].
Qed.

(** The constructor returns whenever the id is new in the scope, and the
    object it returns holds one resource, whose data list pairs off with
    the mappings. *)
Lemma ExternalSecret_init_Ok (scope : Scope) (id store_name : string)
    (src : ExternalSecretSource) (meta : ApiObjectMetadata) :
  id ∉ scope_children scope ->
  exists self r,
    ExternalSecret_init scope id store_name src meta = Ok self /\
    emitted self = Some r /\
    _k8s_secret_name self = k8s_secret_name src /\
    metadata r = meta /\
    secret_store_ref (spec r)
      = {| store_ref_name := store_name; store_ref_kind := "SecretStore" |} /\
    spec_refresh_interval (spec r) = refresh_interval src /\
    target_name (target (spec r)) = k8s_secret_name src /\
    Forall2 (fun kv d => data_entry src kv = Ok d)
      (items (secret_mappings src)) (data (spec r)).
Proof.
  intros Hid. unfold ExternalSecret_init, Construct_init.
  rewrite bool_decide_eq_false_2 by done. simpl.
  destruct (mapM_is_Ok (data_entry src) (items (secret_mappings src)))
    as [dat Hdat].
  { intros [k v]. destruct (data_entry_Ok src k v) as (d & Hd & _).
    by exists d. }
  rewrite Hdat. simpl. eexists _, _. split; [done |].
  split; [done |]. simpl. repeat split. by apply mapM_Ok.
Qed.

(** C1: for each mapping (sourceKey, targetValue) the constructor emits a
    data entry, at the mapping's position, whose secretKey is targetValue
    when that is a non-empty string and is otherwise the substring of
    sourceKey after its last '.'; the mappings {"K.S": "", "K2": "T2"} give
    the keys {"K.S": "S", "K2": "T2"}. *)
Theorem secret_key_of_each_mapping (scope : Scope) (id store_name : string)
    (secret_source : ExternalSecretSource) (metadata : ApiObjectMetadata) :
  id ∉ scope_children scope ->
  exists self r,
    ExternalSecret_init scope id store_name secret_source metadata = Ok self /\
    emitted self = Some r /\
    length (data (spec r)) = length (items (secret_mappings secret_source)) /\
    (forall (i : nat) (k v : string),
       items (secret_mappings secret_source) !! i = Some (k, v) ->
       exists d, data (spec r) !! i = Some d /\
         (v <> "" -> secret_key d = v) /\
         (v = "" -> after_last dot k (secret_key d))) /\
    (secret_mappings secret_source = dict_of [("K.S", ""); ("K2", "T2")] ->
     (fun d => (property (remote_ref d), secret_key d)) <$> data (spec r)
     = [("K.S", "S"); ("K2", "T2")]).
Proof.
  intros Hid.
  destruct (ExternalSecret_init_Ok scope id store_name secret_source
              metadata Hid)
    as (self & r & Hinit & Hr & _ & _ & _ & _ & _ & Hdata).
  exists self, r. split; [done |]. split; [done |].
  split; [symmetry; by eapply Forall2_length |]. split.
  - intros i k v Hi.
    destruct (Forall2_lookup_l _ _ _ _ _ Hdata Hi) as (d & Hd & Hentry).
    exists d. split; [done |].
    destruct (data_entry_Ok secret_source k v) as (d' & Hd' & _ & _ & Hv).
    rewrite Hentry in Hd'. by injection Hd' as <-.
  - intros Hmap. unfold items in Hdata. rewrite Hmap in Hdata.
    apply mapM_Ok in Hdata. remember (data (spec r)) as dat.
    vm_compute in Hdata. by injection Hdata as <-.
Qed.

Lemma secret_key_of_each_mapping_witness :
  ("dbSecret" ∉ scope_children app_scope) /\
  exists self r,
    ExternalSecret_init app_scope "dbSecret" "secrets-manager" db_source
      no_metadata = Ok self /\
    emitted self = Some r /\
    (fun d => (property (remote_ref d), secret_key d)) <$> data (spec r)
    = [("K.S", "S"); ("K2", "T2")].
Proof.
  split; [exact app_scope_fresh |].
  destruct (secret_key_of_each_mapping app_scope "dbSecret" "secrets-manager"
              db_source no_metadata app_scope_fresh)
    as (self & r & Hinit & Hr & _ & _ & Hkeys).
  exists self, r. split; [exact Hinit |]. split; [exact Hr |].
  apply Hkeys. reflexivity.
Defined.

(** C4: every element of the emitted data list has remoteRef.key equal to
    the request's source_secret and remoteRef.property equal to the source
    key of the mapping it was made from, dotted or not; the list pairs off
    with the mappings one to one. *)
Theorem remote_ref_of_each_mapping (scope : Scope) (id store_name : string)
    (secret_source : ExternalSecretSource) (metadata : ApiObjectMetadata) :
  id ∉ scope_children scope ->
  exists self r,
    ExternalSecret_init scope id store_name secret_source metadata = Ok self /\
    emitted self = Some r /\
    Forall2 (fun kv d => key (remote_ref d) = source_secret secret_source /\
                         property (remote_ref d) = kv.1)
      (items (secret_mappings secret_source)) (data (spec r)) /\
    Forall (fun d => key (remote_ref d) = source_secret secret_source /\
                     property (remote_ref d)
                       ∈ (items (secret_mappings secret_source)).*1)
      (data (spec r)).
Proof.
  intros Hid.
  destruct (ExternalSecret_init_Ok scope id store_name secret_source
              metadata Hid)
    as (self & r & Hinit & Hr & _ & _ & _ & _ & _ & Hdata).
  exists self, r. split; [done |]. split; [done |].
  assert (Forall2 (fun kv d =>
                     key (remote_ref d) = source_secret secret_source /\
                     property (remote_ref d) = kv.1)
            (items (secret_mappings secret_source)) (data (spec r))) as Hrefs.
  { eapply Forall2_impl; [exact Hdata |]. intros [k v] d Hd.
    destruct (data_entry_Ok secret_source k v) as (d' & Hd' & Hk & Hp & _).
    rewrite Hd in Hd'. injection Hd' as <-. done. }
  split; [done |].
  apply Forall_lookup. intros i d Hi.
  destruct (Forall2_lookup_r _ _ _ _ _ Hrefs Hi) as (kv & Hkv & Hk & Hp).
  split; [done |]. rewrite Hp. apply list_elem_of_fmap. exists kv.
  split; [done |]. by eapply list_elem_of_lookup_2.
Qed.

Lemma remote_ref_of_each_mapping_witness :
  ("dbSecret" ∉ scope_children app_scope) /\
  exists self r,
    ExternalSecret_init app_scope "dbSecret" "secrets-manager" db_source
      no_metadata = Ok self /\
    emitted self = Some r /\
    Forall (fun d => key (remote_ref d) = "secret-1" /\
                     property (remote_ref d) ∈ ["K.S"; "K2"])
      (data (spec r)).
Proof.
  split; [exact app_scope_fresh |].
  destruct (remote_ref_of_each_mapping app_scope "dbSecret" "secrets-manager"
              db_source no_metadata app_scope_fresh)
    as (self & r & Hinit & Hr & _ & Hall).
  exists self, r. split; [exact Hinit |]. split; [exact Hr |]. exact Hall.
Defined.

(** C5: the emitted resource's target.name is the source's k8s_secret_name,
    and the construct's k8s_secret_name property returns that same value. *)
Theorem target_name_is_k8s_secret_name (scope : Scope)
    (id store_name : string) (secret_source : ExternalSecretSource)
    (metadata : ApiObjectMetadata) :
  id ∉ scope_children scope ->
  exists self r,
    ExternalSecret_init scope id store_name secret_source metadata = Ok self /\
    emitted self = Some r /\
    target_name (target (spec r)) = k8s_secret_name secret_source /\
    get_k8s_secret_name self = k8s_secret_name secret_source /\
    get_k8s_secret_name self = target_name (target (spec r)).
Proof.
  intros Hid.
  destruct (ExternalSecret_init_Ok scope id store_name secret_source
              metadata Hid)
    as (self & r & Hinit & Hr & Hname & _ & _ & _ & Htarget & _).
  exists self, r. unfold get_k8s_secret_name.
  rewrite Hname, Htarget. done.
Qed.

Lemma target_name_is_k8s_secret_name_witness :
  ("dbSecret" ∉ scope_children app_scope) /\
  exists self r,
    ExternalSecret_init app_scope "dbSecret" "secrets-manager" db_source
      no_metadata = Ok self /\
    emitted self = Some r /\
    target_name (target (spec r)) = "app-secret2" /\
    get_k8s_secret_name self = "app-secret2".
Proof.
  split; [exact app_scope_fresh |].
  destruct (target_name_is_k8s_secret_name app_scope "dbSecret"
              "secrets-manager" db_source no_metadata app_scope_fresh)
    as (self & r & Hinit & Hr & Htarget & Hprop & _).
  exists self, r. split; [exact Hinit |]. split; [exact Hr |].
  split; [exact Htarget | exact Hprop].
Defined.

(** C6: the emitted refreshInterval is "1h" when the source is constructed
    without a refresh_interval, and is the supplied string, unmodified,
    when it is constructed with one. *)
Theorem refresh_interval_default_or_given (scope : Scope)
    (id store_name source_secret k8s_secret_name : string)
    (secret_mappings : list (string * string))
    (refresh_interval : option string) (metadata : ApiObjectMetadata) :
  id ∉ scope_children scope ->
  exists self r,
    ExternalSecret_init scope id store_name
      (mkExternalSecretSource source_secret k8s_secret_name secret_mappings
         refresh_interval) metadata = Ok self /\
    emitted self = Some r /\
    (refresh_interval = None -> spec_refresh_interval (spec r) = "1h") /\
    (forall given, refresh_interval = Some given ->
                   spec_refresh_interval (spec r) = given).
Proof.
  intros Hid.
  destruct (ExternalSecret_init_Ok scope id store_name
              (mkExternalSecretSource source_secret k8s_secret_name
                 secret_mappings refresh_interval) metadata Hid)
    as (self & r & Hinit & Hr & _ & _ & _ & Hrefresh & _).
  exists self, r. split; [done |]. split; [done |]. rewrite Hrefresh.
  split; [by intros -> | by intros given ->].
Qed.

Lemma refresh_interval_default_or_given_witness :
  ("dbSecret" ∉ scope_children app_scope) /\
  (exists self r,
     ExternalSecret_init app_scope "dbSecret" "secrets-manager"
       (mkExternalSecretSource "secret-1" "app-secret2" [("K2", "T2")] None)
       no_metadata = Ok self /\
     emitted self = Some r /\ spec_refresh_interval (spec r) = "1h") /\
  (exists self r,
     ExternalSecret_init app_scope "dbSecret" "secrets-manager"
       (mkExternalSecretSource "secret-1" "app-secret2" [("K2", "T2")]
          (Some "15m"))
       no_metadata = Ok self /\
     emitted self = Some r /\ spec_refresh_interval (spec r) = "15m").
Proof.
  split; [exact app_scope_fresh |]. split.
  - destruct (refresh_interval_default_or_given app_scope "dbSecret"
                "secrets-manager" "secret-1" "app-secret2" [("K2", "T2")]
                None no_metadata app_scope_fresh)
      as (self & r & Hinit & Hr & Hdefault & _).
    exists self, r. split; [exact Hinit |]. split; [exact Hr |].
    apply Hdefault. reflexivity.
  - destruct (refresh_interval_default_or_given app_scope "dbSecret"
                "secrets-manager" "secret-1" "app-secret2" [("K2", "T2")]
                (Some "15m") no_metadata app_scope_fresh)
      as (self & r & Hinit & Hr & _ & Hgiven).
    exists self, r. split; [exact Hinit |]. split; [exact Hr |].
    apply Hgiven. reflexivity.
Defined.

(** C9: a mapping whose target value is the empty string and whose source
    key has no '.' gets the whole source key as its secretKey. *)
Theorem undotted_key_used_verbatim (scope : Scope) (id store_name : string)
    (secret_source : ExternalSecretSource) (metadata : ApiObjectMetadata) :
  id ∉ scope_children scope ->
  exists self r,
    ExternalSecret_init scope id store_name secret_source metadata = Ok self /\
    emitted self = Some r /\
    forall (i : nat) (k v : string),
      items (secret_mappings secret_source) !! i = Some (k, v) ->
      truthy v = false ->
      contains dot k = false ->
      split dot k = [k] /\
      exists d, data (spec r) !! i = Some d /\ secret_key d = k.
Proof.
  intros Hid.
  destruct (ExternalSecret_init_Ok scope id store_name secret_source
              metadata Hid)
    as (self & r & Hinit & Hr & _ & _ & _ & _ & _ & Hdata).
  exists self, r. split; [done |]. split; [done |].
  intros i k v Hi Hv Hk. split; [by apply split_free |].
  destruct (Forall2_lookup_l _ _ _ _ _ Hdata Hi) as (d & Hd & Hentry).
  exists d. split; [done |].
  unfold data_entry, or_else, str in Hentry. rewrite Hv in Hentry.
  rewrite (split_free dot k Hk) in Hentry. by injection Hentry as <-.
Qed.

Lemma undotted_key_used_verbatim_witness :
  ("dbSecret" ∉ scope_children app_scope) /\
  exists self r,
    ExternalSecret_init app_scope "dbSecret" "secrets-manager"
      (mkExternalSecretSource "secret-1" "app-secret2"
         (dict_of [("K.S", ""); ("plain", "")]) None)
      no_metadata = Ok self /\
    emitted self = Some r /\
    exists d, data (spec r) !! 1%nat = Some d /\ secret_key d = "plain".
Proof.
  split; [exact app_scope_fresh |].
  destruct (undotted_key_used_verbatim app_scope "dbSecret" "secrets-manager"
              (mkExternalSecretSource "secret-1" "app-secret2"
                 (dict_of [("K.S", ""); ("plain", "")]) None)
              no_metadata app_scope_fresh)
    as (self & r & Hinit & Hr & Hkeys).
  exists self, r. split; [exact Hinit |]. split; [exact Hr |].
  apply (Hkeys 1%nat "plain" ""); reflexivity.
Defined.

End ExternalSecretFacts.

(** ** The ProtectedCloudfront stack *)

Module CloudfrontFacts.
Import Cloudfront.

(** Evaluation of the constructor's body, leaving alone what depends on
    the arguments. *)
Ltac run_body :=
  cbv -[format display String.app scope_path props_stack_name].


(** When they are and it has, the constructor returns; the object it
    returns, seen through its attributes, its methods, its outputs and its
    records. *)
Lemma ProtectedCloudfrontStack_init_Ok (scope : Scope)
    (construct_id : string) (hosted_zone : HostedZone)
    (domain origin_domain : string) (env_context : gmap string value)
    (kwargs : StackProps) (v : value) :
  construct_id ∉ scope_children scope ->
  env_context !! "env_name" = Some v ->
  let h := format v +:+ "-" +:+ props_stack_name kwargs in
  let http_origin :=
    {| origin_domain_name := origin_domain;
       custom_headers := display [(SECRET_HEADER_NAME, h)] |} in
  exists self d r,
    ProtectedCloudfrontStack_init scope construct_id hosted_zone domain
      origin_domain env_context kwargs = Ok self /\
    stack_name self = props_stack_name kwargs /\
    env_name self = Some v /\
    secret_header self = Some h /\
    _cdn self = Some "CdnDistribution" /\
    cdn self = Ok d /\
    geo_restriction d = GeoRestriction.allowlist ["GB"; "JE"; "GG"] /\
    default_behavior d
      = {| origin := http_origin;
           compress := true;
           cache_policy := CachePolicy.CACHING_DISABLED;
           origin_request_policy := OriginRequestPolicy.ALL_VIEWER;
           allowed_methods := AllowedMethods.ALLOW_ALL;
           cached_methods := CachedMethods.CACHE_GET_HEAD;
           viewer_protocol_policy :=
             ViewerProtocolPolicy.REDIRECT_TO_HTTPS |} /\
    additional_behaviors d
      = [ ("/assets/*",
           {| origin := http_origin;
              compress := true;
              cache_policy := CachePolicy.CACHING_OPTIMIZED;
              origin_request_policy :=
                OriginRequestPolicy.created "StaticAssetsOriginRequestPolicy";
              allowed_methods := AllowedMethods.ALLOW_GET_HEAD;
              cached_methods := CachedMethods.CACHE_GET_HEAD;
              viewer_protocol_policy :=
                ViewerProtocolPolicy.REDIRECT_TO_HTTPS |}) ] /\
    outputs self
      = [ ("CloudfrontDistributionId",
            Attribute "CdnDistribution" "distribution_id");
          ("CloudfrontDistributionDomain",
            Attribute "CdnDistribution" "distribution_domain_name");
          ("SecretHeaderArn", Literal h) ] /\
    index (split dot domain) 0 = Ok r /\
    records self
      = [ {| zone := hosted_zone;
             record_name := r;
             record_target :=
               RecordTarget.from_alias (CloudFrontTarget "CdnDistribution") |} ].
Proof.
  intros Hid Hv h http_origin.
  destruct (index_first_split dot domain) as (r & Hr & _).
  unfold ProtectedCloudfrontStack_init, Stack_init, Construct_init.
  rewrite bool_decide_eq_false_2 by done.
  cbv beta iota zeta delta [mbind result_bind mret result_ret set_context
                            getattr context getitem].
  rewrite Hv, Hr. run_body.
  eexists _, _, r. split; [reflexivity |].
  split; [reflexivity |]. split; [reflexivity |]. split; [reflexivity |].
  split; [reflexivity |]. split; [reflexivity |]. split; [reflexivity |].
  split; [reflexivity |]. split; [reflexivity |]. split; [reflexivity |].
  split; reflexivity.
Qed.

(** The dict display of one entry holds that entry and nothing else. *)
Lemma display_one {V : Type} (k : string) (v : V) :
  display [(k, v)] = {[ k := v ]}.
Proof. unfold display. simpl. apply insert_empty. Qed.

(** C2: the string "{env_name}-{stack_name}", env_name being what the
    context holds under "env_name", is the one secret-header value: it is
    what secretHeaderValue() returns, the value of the output SecretHeaderArn,
    and what the key "X-Secret-CF-ALB-Header" maps to in the dict returned by
    secretHeader() and in the custom headers of the origin of every behavior
    of the distribution. *)
Theorem secret_header_single_value (scope : Scope) (construct_id : string)
    (hosted_zone : HostedZone) (domain origin_domain : string)
    (env_context : gmap string value) (kwargs : StackProps) (v : value) :
  construct_id ∉ scope_children scope ->
  env_context !! "env_name" = Some v ->
  exists self d,
    ProtectedCloudfrontStack_init scope construct_id hosted_zone domain
      origin_domain env_context kwargs = Ok self /\
    cdn self = Ok d /\
    env_name self = Some v /\
    stack_name self = props_stack_name kwargs /\
    let h := format v +:+ "-" +:+ props_stack_name kwargs in
    secret_header self = Some h /\
    secretHeaderValue self = Ok h /\
    output self "SecretHeaderArn" = Some (Literal h) /\
    secretHeader self = Ok {[ "X-Secret-CF-ALB-Header" := h ]} /\
    custom_headers (origin (default_behavior d))
      = {[ "X-Secret-CF-ALB-Header" := h ]} /\
    Forall (fun b => custom_headers (origin b.2)
                     = {[ "X-Secret-CF-ALB-Header" := h ]})
      (additional_behaviors d).
Proof.
  intros Hid Hv.
  destruct (ProtectedCloudfrontStack_init_Ok scope construct_id hosted_zone
              domain origin_domain env_context kwargs v Hid Hv)
    as (self & d & r & Hinit & Hname & Henv & Hheader & _ & Hcdn & _
        & Hdefault & Hadded & Houtputs & _).
  exists self, d. split; [done |]. split; [done |]. split; [done |].
  split; [done |]. intros h. subst h.
  split; [done |].
  split; [unfold secretHeaderValue; by rewrite Hheader |].
  split; [unfold output; by rewrite Houtputs |].
  split.
  { unfold secretHeader. rewrite Hheader. simpl. by rewrite display_one. }
  split; [rewrite Hdefault; simpl; apply display_one |].
  rewrite Hadded. constructor; [simpl; apply display_one | constructor].
Qed.

Lemma cloudfront_fresh : "cloudfront" ∉ scope_children app_scope.
Proof. apply (bool_decide_unpack _). vm_compute. exact I. Defined.

Lemma qa_context_env_name : qa_context !! "env_name" = Some (VStr "qa").
Proof. vm_compute. reflexivity. Defined.

Lemma secret_header_single_value_witness :
  ("cloudfront" ∉ scope_children app_scope) /\
  qa_context !! "env_name" = Some (VStr "qa") /\
  exists self,
    ProtectedCloudfrontStack_init app_scope "cloudfront" qa_zone
      "app.example.com" "alb.example.com" qa_context qa_props = Ok self /\
    secretHeaderValue self = Ok "qa-qaCaReferrals-cloudfront" /\
    output self "SecretHeaderArn"
      = Some (Literal "qa-qaCaReferrals-cloudfront") /\
    secretHeader self
      = Ok {[ "X-Secret-CF-ALB-Header" := "qa-qaCaReferrals-cloudfront" ]}.
Proof.
  split; [exact cloudfront_fresh |]. split; [exact qa_context_env_name |].
  destruct (secret_header_single_value app_scope "cloudfront" qa_zone
              "app.example.com" "alb.example.com" qa_context qa_props
              (VStr "qa") cloudfront_fresh qa_context_env_name)
    as (self & d & Hinit & _ & _ & _ & _ & Hvalue & Houtput & Hdict & _).
  exists self. split; [exact Hinit |].
  split; [exact Hvalue |]. split; [exact Houtput | exact Hdict].
Defined.

(** C3: the distribution's default behavior uses the cache policy
    CACHING_DISABLED and the behavior added for "/assets/*", the only one
    added, uses CACHING_OPTIMIZED; neither has the policy of the other. *)
Theorem cache_policies_not_swapped (scope : Scope) (construct_id : string)
    (hosted_zone : HostedZone) (domain origin_domain : string)
    (env_context : gmap string value) (kwargs : StackProps) (v : value) :
  construct_id ∉ scope_children scope ->
  env_context !! "env_name" = Some v ->
  exists self d assets,
    ProtectedCloudfrontStack_init scope construct_id hosted_zone domain
      origin_domain env_context kwargs = Ok self /\
    cdn self = Ok d /\
    cache_policy (default_behavior d) = CachePolicy.CACHING_DISABLED /\
    (additional_behaviors d).*1 = ["/assets/*"] /\
    behavior d "/assets/*" = Some assets /\
    cache_policy assets = CachePolicy.CACHING_OPTIMIZED /\
    cache_policy (default_behavior d) <> CachePolicy.CACHING_OPTIMIZED /\
    cache_policy assets <> CachePolicy.CACHING_DISABLED.
Proof.
  intros Hid Hv.
  destruct (ProtectedCloudfrontStack_init_Ok scope construct_id hosted_zone
              domain origin_domain env_context kwargs v Hid Hv)
    as (self & d & r & Hinit & _ & _ & _ & _ & Hcdn & _
        & Hdefault & Hadded & _).
  exists self, d. eexists. split; [done |]. split; [done |].
  unfold behavior. rewrite Hdefault, Hadded. simpl.
  split; [done |]. split; [done |]. split; [done |]. simpl.
  split; [done |]. split; discriminate.
Qed.

Lemma cache_policies_not_swapped_witness :
  ("cloudfront" ∉ scope_children app_scope) /\
  qa_context !! "env_name" = Some (VStr "qa") /\
  exists self d assets,
    ProtectedCloudfrontStack_init app_scope "cloudfront" qa_zone
      "app.example.com" "alb.example.com" qa_context qa_props = Ok self /\
    cdn self = Ok d /\
    cache_policy (default_behavior d) = CachePolicy.CACHING_DISABLED /\
    behavior d "/assets/*" = Some assets /\
    cache_policy assets = CachePolicy.CACHING_OPTIMIZED.
Proof.
  split; [exact cloudfront_fresh |]. split; [exact qa_context_env_name |].
  destruct (cache_policies_not_swapped app_scope "cloudfront" qa_zone
              "app.example.com" "alb.example.com" qa_context qa_props
              (VStr "qa") cloudfront_fresh qa_context_env_name)
    as (self & d & assets & Hinit & Hcdn & Hdefault & _ & Hassets & Hpolicy
        & _).
  exists self, d, assets. split; [exact Hinit |]. split; [exact Hcdn |].
  split; [exact Hdefault |]. split; [exact Hassets | exact Hpolicy].
Defined.

(** C7: the distribution's geo-restriction is an allowlist, and a country
    code is on it exactly when it is "GB", "JE" or "GG"; the list has these
    three entries and no other. *)
Theorem geo_restriction_allowlist (scope : Scope) (construct_id : string)
    (hosted_zone : HostedZone) (domain origin_domain : string)
    (env_context : gmap string value) (kwargs : StackProps) (v : value) :
  construct_id ∉ scope_children scope ->
  env_context !! "env_name" = Some v ->
  exists self d,
    ProtectedCloudfrontStack_init scope construct_id hosted_zone domain
      origin_domain env_context kwargs = Ok self /\
    cdn self = Ok d /\
    GeoRestriction.restriction (geo_restriction d)
      = GeoRestriction.whitelist /\
    GeoRestriction.locations (geo_restriction d) = ["GB"; "JE"; "GG"] /\
    length (GeoRestriction.locations (geo_restriction d)) = 3%nat /\
    forall code : string,
      code ∈ GeoRestriction.locations (geo_restriction d) <->
      code = "GB" \/ code = "JE" \/ code = "GG".
Proof.
  intros Hid Hv.
  destruct (ProtectedCloudfrontStack_init_Ok scope construct_id hosted_zone
              domain origin_domain env_context kwargs v Hid Hv)
    as (self & d & r & Hinit & _ & _ & _ & _ & Hcdn & Hgeo & _).
  exists self, d. split; [done |]. split; [done |]. rewrite Hgeo. simpl.
  split; [done |]. split; [done |]. split; [done |].
  intros code. rewrite !elem_of_cons, elem_of_nil. tauto.
Qed.

Lemma geo_restriction_allowlist_witness :
  ("cloudfront" ∉ scope_children app_scope) /\
  qa_context !! "env_name" = Some (VStr "qa") /\
  exists self d,
    ProtectedCloudfrontStack_init app_scope "cloudfront" qa_zone
      "app.example.com" "alb.example.com" qa_context qa_props = Ok self /\
    cdn self = Ok d /\
    GeoRestriction.restriction (geo_restriction d)
      = GeoRestriction.whitelist /\
    GeoRestriction.locations (geo_restriction d) = ["GB"; "JE"; "GG"].
Proof.
  split; [exact cloudfront_fresh |]. split; [exact qa_context_env_name |].
  destruct (geo_restriction_allowlist app_scope "cloudfront" qa_zone
              "app.example.com" "alb.example.com" qa_context qa_props
              (VStr "qa") cloudfront_fresh qa_context_env_name)
    as (self & d & Hinit & Hcdn & Hkind & Hcodes & _).
  exists self, d. split; [exact Hinit |]. split; [exact Hcdn |].
  split; [exact Hkind | exact Hcodes].
Defined.

(** C8: the stack has one A record; it is in the hosted zone given, its
    name is the first '.'-separated label of the domain, and its target is an
    alias of the CDN distribution; for the domain "app.example.com" the name
    is "app". *)
Theorem record_name_first_label (scope : Scope) (construct_id : string)
    (hosted_zone : HostedZone) (domain origin_domain : string)
    (env_context : gmap string value) (kwargs : StackProps) (v : value) :
  construct_id ∉ scope_children scope ->
  env_context !! "env_name" = Some v ->
  exists self d record,
    ProtectedCloudfrontStack_init scope construct_id hosted_zone domain
      origin_domain env_context kwargs = Ok self /\
    cdn self = Ok d /\
    records self = [record] /\
    zone record = hosted_zone /\
    index (split dot domain) 0 = Ok (record_name record) /\
    first_label dot domain (record_name record) /\
    (exists ref, _cdn self = Some ref /\
       record_target record = RecordTarget.from_alias (CloudFrontTarget ref)) /\
    (domain = "app.example.com" -> record_name record = "app").
Proof.
  intros Hid Hv.
  destruct (ProtectedCloudfrontStack_init_Ok scope construct_id hosted_zone
              domain origin_domain env_context kwargs v Hid Hv)
    as (self & d & r & Hinit & _ & _ & _ & Href & Hcdn & _ & _ & _ & _
        & Hr & Hrecords).
  exists self, d. eexists. split; [done |]. split; [done |].
  split; [exact Hrecords |]. simpl. split; [done |]. split; [done |].
  split.
  { apply head_split. rewrite index_first in Hr.
    destruct (head (split dot domain)) as [w|]; [| done].
    simpl in Hr. by injection Hr as ->. }
  split; [by exists "CdnDistribution" |].
  intros ->. vm_compute in Hr. by injection Hr as <-.
Qed.

Lemma record_name_first_label_witness :
  ("cloudfront" ∉ scope_children app_scope) /\
  qa_context !! "env_name" = Some (VStr "qa") /\
  exists self record,
    ProtectedCloudfrontStack_init app_scope "cloudfront" qa_zone
      "app.example.com" "alb.example.com" qa_context qa_props = Ok self /\
    records self = [record] /\
    zone record = qa_zone /\
    record_name record = "app".
Proof.
  split; [exact cloudfront_fresh |]. split; [exact qa_context_env_name |].
  destruct (record_name_first_label app_scope "cloudfront" qa_zone
              "app.example.com" "alb.example.com" qa_context qa_props
              (VStr "qa") cloudfront_fresh qa_context_env_name)
    as (self & d & record & Hinit & _ & Hrecords & Hzone & _ & _ & _ & Happ).
  exists self, record. split; [exact Hinit |]. split; [exact Hrecords |].
  split; [exact Hzone |]. apply Happ. reflexivity.
Defined.

(** C10: the stack emits three outputs, named "CloudfrontDistributionId",
    "CloudfrontDistributionDomain" and "SecretHeaderArn"; the last carries
    the secret-header string itself, a literal and not an attribute of a
    resource, and is the only name under which that value is found; the
    other two carry the id and the domain name of the distribution. *)
Theorem secret_header_output_name (scope : Scope) (construct_id : string)
    (hosted_zone : HostedZone) (domain origin_domain : string)
    (env_context : gmap string value) (kwargs : StackProps) (v : value) :
  construct_id ∉ scope_children scope ->
  env_context !! "env_name" = Some v ->
  exists self h ref,
    ProtectedCloudfrontStack_init scope construct_id hosted_zone domain
      origin_domain env_context kwargs = Ok self /\
    secretHeaderValue self = Ok h /\
    _cdn self = Some ref /\
    (outputs self).*1
      = ["CloudfrontDistributionId"; "CloudfrontDistributionDomain";
         "SecretHeaderArn"] /\
    output self "SecretHeaderArn" = Some (Literal h) /\
    (forall id, output self id = Some (Literal h) -> id = "SecretHeaderArn") /\
    output self "CloudfrontDistributionId"
      = Some (Attribute ref "distribution_id") /\
    output self "CloudfrontDistributionDomain"
      = Some (Attribute ref "distribution_domain_name").
Proof.
  intros Hid Hv.
  destruct (ProtectedCloudfrontStack_init_Ok scope construct_id hosted_zone
              domain origin_domain env_context kwargs v Hid Hv)
    as (self & d & r & Hinit & _ & _ & Hheader & Href & _ & _ & _ & _
        & Houtputs & _).
  exists self. eexists. exists "CdnDistribution". split; [done |].
  split; [unfold secretHeaderValue; by rewrite Hheader |].
  split; [done |]. unfold output. rewrite Houtputs.
  split; [reflexivity |]. split; [reflexivity |].
  split; [| split; reflexivity].
  intros id. cbn [List.find fst snd].
  destruct (String.eqb_spec "CloudfrontDistributionId" id); [done |].
  destruct (String.eqb_spec "CloudfrontDistributionDomain" id); [done |].
  destruct (String.eqb_spec "SecretHeaderArn" id); done.
Qed.

Lemma secret_header_output_name_witness :
  ("cloudfront" ∉ scope_children app_scope) /\
  qa_context !! "env_name" = Some (VStr "qa") /\
  exists self,
    ProtectedCloudfrontStack_init app_scope "cloudfront" qa_zone
      "app.example.com" "alb.example.com" qa_context qa_props = Ok self /\
    (outputs self).*1
      = ["CloudfrontDistributionId"; "CloudfrontDistributionDomain";
         "SecretHeaderArn"] /\
    exists h, output self "SecretHeaderArn" = Some (Literal h).
Proof.
  split; [exact cloudfront_fresh |]. split; [exact qa_context_env_name |].
  destruct (secret_header_output_name app_scope "cloudfront" qa_zone
              "app.example.com" "alb.example.com" qa_context qa_props
              (VStr "qa") cloudfront_fresh qa_context_env_name)
    as (self & h & ref & Hinit & _ & _ & Hnames & Houtput & _).
  exists self. split; [exact Hinit |]. split; [exact Hnames |].
  exists h. exact Houtput.
Defined.

End CloudfrontFacts.

(** ** More on the ExternalSecret facade *)

Module ExternalSecretMore.
Import ExternalSecrets ExternalSecretFacts.

(** A string has one substring after its last [c]. *)
Lemma after_last_unique (c : ascii) (s r1 r2 : string) :
  after_last c s r1 -> after_last c s r2 -> r1 = r2.
Proof.
  intros H1%last_split H2%last_split. rewrite H1 in H2. by injection H2.
Qed.




(** X3: with an empty target, the derived secretKey is the empty string
    exactly when the source key is empty or ends with '.'. *)
Theorem empty_secret_key_iff (scope : Scope) (id store_name : string)
    (secret_source : ExternalSecretSource) (metadata : ApiObjectMetadata) :
  id ∉ scope_children scope ->
  exists self r,
    ExternalSecret_init scope id store_name secret_source metadata = Ok self /\
    emitted self = Some r /\
    forall (i : nat) (k : string) (d : ExternalSecretV1Beta1SpecData),
      items (secret_mappings secret_source) !! i = Some (k, "") ->
      data (spec r) !! i = Some d ->
      (secret_key d = "" <-> k = "" \/ exists p, k = p +:+ ".").
Proof.
  intros Hid.
  destruct (ExternalSecret_init_Ok scope id store_name secret_source
              metadata Hid)
    as (self & r & Hinit & Hr & _ & _ & _ & _ & _ & Hdata).
  exists self, r. split; [done |]. split; [done |].
  intros i k d Hi Hd.
  pose proof (Forall2_lookup_lr _ _ _ _ _ _ Hdata Hi Hd) as Hentry.
  destruct (data_entry_Ok secret_source k "") as (d' & Hd' & _ & _ & _ & Hk).
  rewrite Hentry in Hd'. injection Hd' as <-. specialize (Hk eq_refl).
  split.
  - intros Hempty. rewrite Hempty in Hk. destruct Hk as [_ [-> | [p ->]]].
    + by left.
    + right. by exists p.
  - intros Hshape. apply (after_last_unique dot k); [done |].
    split; [done |]. destruct Hshape as [-> | [p ->]]; [by left |].
    right. by exists p.
Qed.

Lemma empty_secret_key_iff_witness :
  ("dbSecret" ∉ scope_children app_scope) /\
  exists self r d,
    ExternalSecret_init app_scope "dbSecret" "secrets-manager"
      (mkExternalSecretSource "secret-1" "app-secret2"
         (dict_of [("a.b.", ""); ("a.b", "")]) None)
      no_metadata = Ok self /\
    emitted self = Some r /\
    data (spec r) !! 0%nat = Some d /\
    secret_key d = "".
Proof.
  split; [exact app_scope_fresh |].
  destruct (empty_secret_key_iff app_scope "dbSecret" "secrets-manager"
              (mkExternalSecretSource "secret-1" "app-secret2"
                 (dict_of [("a.b.", ""); ("a.b", "")]) None)
              no_metadata app_scope_fresh)
    as (self & r & Hinit & Hr & Hiff).
  assert (exists d, data (spec r) !! 0%nat = Some d) as [d Hd].
  { vm_compute in Hinit. injection Hinit as <-.
    vm_compute in Hr. injection Hr as <-. eexists. reflexivity. }
  exists self, r, d. split; [exact Hinit |]. split; [exact Hr |].
  split; [exact Hd |].
  apply (Hiff 0%nat "a.b." d); [reflexivity | exact Hd |].
  right. exists "a.b". reflexivity.
Defined.

(** X4: two mappings with empty targets whose source keys end in the same
    segment get the same secretKey, that segment: the destination keys of
    distinct source keys can coincide. *)
Theorem same_segment_same_secret_key (scope : Scope) (id store_name : string)
    (secret_source : ExternalSecretSource) (metadata : ApiObjectMetadata) :
  id ∉ scope_children scope ->
  exists self r,
    ExternalSecret_init scope id store_name secret_source metadata = Ok self /\
    emitted self = Some r /\
    forall (i j : nat) (k1 k2 segment : string)
           (d1 d2 : ExternalSecretV1Beta1SpecData),
      items (secret_mappings secret_source) !! i = Some (k1, "") ->
      items (secret_mappings secret_source) !! j = Some (k2, "") ->
      after_last dot k1 segment ->
      after_last dot k2 segment ->
      data (spec r) !! i = Some d1 ->
      data (spec r) !! j = Some d2 ->
      secret_key d1 = segment /\ secret_key d2 = segment /\
      property (remote_ref d1) = k1 /\ property (remote_ref d2) = k2.
Proof.
  intros Hid.
  destruct (ExternalSecret_init_Ok scope id store_name secret_source
              metadata Hid)
    as (self & r & Hinit & Hr & _ & _ & _ & _ & _ & Hdata).
  exists self, r. split; [done |]. split; [done |].
  intros i j k1 k2 segment d1 d2 Hi Hj Hk1 Hk2 Hd1 Hd2.
  pose proof (Forall2_lookup_lr _ _ _ _ _ _ Hdata Hi Hd1) as Hentry1.
  pose proof (Forall2_lookup_lr _ _ _ _ _ _ Hdata Hj Hd2) as Hentry2.
  destruct (data_entry_Ok secret_source k1 "")
    as (d1' & Hd1' & _ & Hp1 & _ & Hs1).
  destruct (data_entry_Ok secret_source k2 "")
    as (d2' & Hd2' & _ & Hp2 & _ & Hs2).
  rewrite Hentry1 in Hd1'. injection Hd1' as <-.
  rewrite Hentry2 in Hd2'. injection Hd2' as <-.
  split; [by apply (after_last_unique dot k1); [apply Hs1 |] |].
  split; [by apply (after_last_unique dot k2); [apply Hs2 |] |].
  done.
Qed.

Lemma same_segment_same_secret_key_witness :
  ("dbSecret" ∉ scope_children app_scope) /\
  exists self r d1 d2,
    ExternalSecret_init app_scope "dbSecret" "secrets-manager"
      (mkExternalSecretSource "secret-1" "app-secret2"
         (dict_of [("db.password", ""); ("api.password", "")]) None)
      no_metadata = Ok self /\
    emitted self = Some r /\
    data (spec r) = [d1; d2] /\
    secret_key d1 = "password" /\ secret_key d2 = "password" /\
    property (remote_ref d1) = "db.password" /\
    property (remote_ref d2) = "api.password".
Proof.
  split; [exact app_scope_fresh |].
  destruct (same_segment_same_secret_key app_scope "dbSecret"
              "secrets-manager"
              (mkExternalSecretSource "secret-1" "app-secret2"
                 (dict_of [("db.password", ""); ("api.password", "")]) None)
              no_metadata app_scope_fresh)
    as (self & r & Hinit & Hr & Hsame).
  assert (exists d1 d2, data (spec r) = [d1; d2]) as (d1 & d2 & Hd).
  { vm_compute in Hinit. injection Hinit as <-.
    vm_compute in Hr. injection Hr as <-. eexists _, _. reflexivity. }
  exists self, r, d1, d2. split; [exact Hinit |]. split; [exact Hr |].
  split; [exact Hd |].
  apply (Hsame 0%nat 1%nat "db.password" "api.password" "password" d1 d2).
  - reflexivity.
  - reflexivity.
  - split; [reflexivity |]. right. exists "db". reflexivity.
  - split; [reflexivity |]. right. exists "api". reflexivity.
  - rewrite Hd. reflexivity.
  - rewrite Hd. reflexivity.
Defined.

(** X5: when the source keys of the mappings are pairwise distinct, as
    the keys of a dict are, so are the remoteRef.property values of the
    emitted data list, which lists them in the order of the mappings. *)
Theorem remote_properties_distinct (scope : Scope) (id store_name : string)
    (secret_source : ExternalSecretSource) (metadata : ApiObjectMetadata) :
  id ∉ scope_children scope ->
  NoDup (items (secret_mappings secret_source)).*1 ->
  exists self r,
    ExternalSecret_init scope id store_name secret_source metadata = Ok self /\
    emitted self = Some r /\
    (fun d => property (remote_ref d)) <$> data (spec r)
      = (items (secret_mappings secret_source)).*1 /\
    NoDup ((fun d => property (remote_ref d)) <$> data (spec r)).
Proof.
  intros Hid Hkeys.
  destruct (ExternalSecret_init_Ok scope id store_name secret_source
              metadata Hid)
    as (self & r & Hinit & Hr & _ & _ & _ & _ & _ & Hdata).
  exists self, r. split; [done |]. split; [done |].
  assert ((fun d => property (remote_ref d)) <$> data (spec r)
          = (items (secret_mappings secret_source)).*1) as Heq.
  { apply list_eq_Forall2, Forall2_fmap, Forall2_flip.
    eapply Forall2_impl; [exact Hdata |]. intros [k v] d Hd. simpl.
    destruct (data_entry_Ok secret_source k v) as (d' & Hd' & _ & Hp & _).
    rewrite Hd in Hd'. by injection Hd' as <-. }
  split; [done |]. by rewrite Heq.
Qed.

Lemma remote_properties_distinct_witness :
  ("dbSecret" ∉ scope_children app_scope) /\
  NoDup (items (secret_mappings db_source)).*1 /\
  exists self r,
    ExternalSecret_init app_scope "dbSecret" "secrets-manager" db_source
      no_metadata = Ok self /\
    emitted self = Some r /\
    (fun d => property (remote_ref d)) <$> data (spec r) = ["K.S"; "K2"].
Proof.
  assert (NoDup (items (secret_mappings db_source)).*1) as Hkeys.
  { apply (bool_decide_unpack _). vm_compute. exact I. }
  split; [exact app_scope_fresh |]. split; [exact Hkeys |].
  destruct (remote_properties_distinct app_scope "dbSecret" "secrets-manager"
              db_source no_metadata app_scope_fresh Hkeys)
    as (self & r & Hinit & Hr & Hprops & _).
  exists self, r. split; [exact Hinit |]. split; [exact Hr |]. exact Hprops.
Defined.

End ExternalSecretMore.

(** ** More on the ProtectedCloudfront stack *)

Module CloudfrontMore.
Import Cloudfront CloudfrontFacts.

Lemma append_assoc (a b c : string) : (a +:+ b) +:+ c = a +:+ b +:+ c.
Proof.
  induction a as [|x a IH]; [done |].
  change (String x ((a +:+ b) +:+ c) = String x (a +:+ b +:+ c)).
  by rewrite IH.
Qed.

(** The tree the constructor leaves under the stack: its children, in
    the order of their creation. *)
Lemma ProtectedCloudfrontStack_init_tree (scope : Scope)
    (construct_id : string) (hosted_zone : HostedZone)
    (domain origin_domain : string) (env_context : gmap string value)
    (kwargs : StackProps) (v : value) :
  construct_id ∉ scope_children scope ->
  env_context !! "env_name" = Some v ->
  let h := format v +:+ "-" +:+ props_stack_name kwargs in
  let http_origin :=
    {| origin_domain_name := origin_domain;
       custom_headers := display [(SECRET_HEADER_NAME, h)] |} in
  exists self r,
    ProtectedCloudfrontStack_init scope construct_id hosted_zone domain
      origin_domain env_context kwargs = Ok self /\
    index (split dot domain) 0 = Ok r /\
    context self = Some env_context /\
    _cdn self = Some "CdnDistribution" /\
    children self
      = [ ("CloudfrontLogBucket",
           ABucket
             {| bucket_name := GENERATE_IF_NEEDED;
                removal_policy := RemovalPolicy.DESTROY;
                lifecycle_rules :=
                  [ {| enabled := true;
                       expiration := Duration.days 186 |} ] |});
          ("WafStack",
           AWafStack
             {| log_requests := false;
                params :=
                  display
                    [ ("ActivateAWSManagedRulesParam", Literal "True");
                      ("ActivateSqlInjectionProtectionParam", Literal "True");
                      ("ActivateCrossSiteScriptingProtectionParam",
                        Literal "True");
                      ("ActivateHttpFloodProtectionParam", Literal "True");
                      ("ActivateScannersProbesProtectionParam",
                        Literal "True");
                      ("ActivateReputationListsProtectionParam",
                        Literal "True");
                      ("ActivateBadBotProtectionParam", Literal "False");
                      ("AppAccessLogBucket",
                        Attribute "CloudfrontLogBucket" "bucket_name") ];
                waf_env :=
                  {| account := None; region := Some "us-east-1" |} |});
          ("Outputs", ARemoteOutputs {| remote_stack := "WafStack" |});
          ("CloudfrontCertificate",
           ACertificate
             {| certificate_domain_name := domain;
                certificate_region := "us-east-1";
                certificate_hosted_zone := hosted_zone |});
          ("StaticAssetsOriginRequestPolicy",
           AnOriginRequestPolicy
             {| policy_comment := "Forward the Host header for assets";
                header_behavior :=
                  OriginRequestHeaderBehavior.allow_list ["Host"];
                cookie_behavior := OriginRequestCookieBehavior.none;
                query_string_behavior :=
                  OriginRequestQueryStringBehavior.none |});
          ("CdnDistribution",
           ADistribution
             {| domain_names := [domain];
                enable_logging := true;
                log_bucket := "CloudfrontLogBucket";
                certificate := "CloudfrontCertificate";
                web_acl_id := Attribute "Outputs" "WAFWebACLArn";
                distribution_comment :=
                  "CDN for " +:+ props_stack_name kwargs;
                geo_restriction :=
                  GeoRestriction.allowlist ["GB"; "JE"; "GG"];
                default_behavior :=
                  {| origin := http_origin;
                     compress := true;
                     cache_policy := CachePolicy.CACHING_DISABLED;
                     origin_request_policy := OriginRequestPolicy.ALL_VIEWER;
                     allowed_methods := AllowedMethods.ALLOW_ALL;
                     cached_methods := CachedMethods.CACHE_GET_HEAD;
                     viewer_protocol_policy :=
                       ViewerProtocolPolicy.REDIRECT_TO_HTTPS |};
                additional_behaviors :=
                  [ ("/assets/*",
                     {| origin := http_origin;
                        compress := true;
                        cache_policy := CachePolicy.CACHING_OPTIMIZED;
                        origin_request_policy :=
                          OriginRequestPolicy.created
                            "StaticAssetsOriginRequestPolicy";
                        allowed_methods := AllowedMethods.ALLOW_GET_HEAD;
                        cached_methods := CachedMethods.CACHE_GET_HEAD;
                        viewer_protocol_policy :=
                          ViewerProtocolPolicy.REDIRECT_TO_HTTPS |}) ];
                dependencies := ["WafStack"] |});
          ("CloudfrontDistributionId",
           AnOutput
             {| output_value :=
                  Attribute "CdnDistribution" "distribution_id" |});
          ("CloudfrontDistributionDomain",
           AnOutput
             {| output_value :=
                  Attribute "CdnDistribution" "distribution_domain_name" |});
          ("SecretHeaderArn", AnOutput {| output_value := Literal h |});
          ("CloudfrontDNS",
           AnARecord
             {| zone := hosted_zone;
                record_name := r;
                record_target :=
                  RecordTarget.from_alias
                    (CloudFrontTarget "CdnDistribution") |}) ].
Proof.
  intros Hid Hv h http_origin.
  destruct (index_first_split dot domain) as (r & Hr & _).
  unfold ProtectedCloudfrontStack_init, Stack_init, Construct_init.
  rewrite bool_decide_eq_false_2 by done.
  cbv beta iota zeta delta [mbind result_bind mret result_ret set_context
                            getattr context getitem].
  rewrite Hv, Hr. run_body.
  eexists _, r. split; [reflexivity |]. split; [reflexivity |].
  split; [reflexivity |]. split; reflexivity.
Qed.

(** Reading the tree of a constructed stack. *)
Ltac in_tree Href Hchildren :=
  unfold cdn, child, outputs, records, behavior;
  rewrite ?Href, ?Hchildren; reflexivity.

(** X6: when the context has no "env_name", the constructor raises
    KeyError for that key. *)
Theorem missing_env_name_raises (scope : Scope) (construct_id : string)
    (hosted_zone : HostedZone) (domain origin_domain : string)
    (env_context : gmap string value) (kwargs : StackProps) :
  construct_id ∉ scope_children scope ->
  env_context !! "env_name" = None ->
  ProtectedCloudfrontStack_init scope construct_id hosted_zone domain
    origin_domain env_context kwargs = Raise (KeyError "env_name").
Proof.
  intros Hid Hnone.
  unfold ProtectedCloudfrontStack_init, Stack_init, Construct_init.
  rewrite bool_decide_eq_false_2 by done.
  cbv beta iota zeta delta [mbind result_bind mret result_ret set_context
                            getattr context getitem].
  by rewrite Hnone.
Qed.

Lemma missing_env_name_raises_witness :
  ("cloudfront" ∉ scope_children app_scope) /\
  (display [("env", VStr "qa")] : gmap string value) !! "env_name" = None /\
  ProtectedCloudfrontStack_init app_scope "cloudfront" qa_zone
    "app.example.com" "alb.example.com" (display [("env", VStr "qa")])
    qa_props = Raise (KeyError "env_name").
Proof.
  assert ((display [("env", VStr "qa")] : gmap string value) !! "env_name"
          = None) as Hnone.
  { vm_compute. reflexivity. }
  split; [exact cloudfront_fresh |]. split; [exact Hnone |].
  exact (missing_env_name_raises app_scope "cloudfront" qa_zone
           "app.example.com" "alb.example.com" (display [("env", VStr "qa")])
           qa_props cloudfront_fresh Hnone).
Defined.




(** X9: the distribution logs, and the bucket it logs to is a child of
    the stack: a bucket with a generated name, destroyed with the stack,
    whose objects expire after 186 days; the WAF stack is given the name of
    that same bucket as its AppAccessLogBucket parameter. *)
Theorem access_logs_bucket_shared (scope : Scope) (construct_id : string)
    (hosted_zone : HostedZone) (domain origin_domain : string)
    (env_context : gmap string value) (kwargs : StackProps) (v : value) :
  construct_id ∉ scope_children scope ->
  env_context !! "env_name" = Some v ->
  exists self d b w,
    ProtectedCloudfrontStack_init scope construct_id hosted_zone domain
      origin_domain env_context kwargs = Ok self /\
    cdn self = Ok d /\
    enable_logging d = true /\
    child self (log_bucket d) = Some (ABucket b) /\
    bucket_name b = GENERATE_IF_NEEDED /\
    removal_policy b = RemovalPolicy.DESTROY /\
    lifecycle_rules b
      = [ {| enabled := true; expiration := Duration.days 186 |} ] /\
    child self "WafStack" = Some (AWafStack w) /\
    params w !! "AppAccessLogBucket"
      = Some (Attribute (log_bucket d) "bucket_name").
Proof.
  intros Hid Hv.
  destruct (ProtectedCloudfrontStack_init_tree scope construct_id
              hosted_zone domain origin_domain env_context kwargs v Hid Hv)
    as (self & r & Hinit & Hr & _ & Href & Hchildren).
  exists self. eexists _, _, _. split; [done |].
  split; [in_tree Href Hchildren |]. split; [reflexivity |].
  split; [in_tree Href Hchildren |]. split; [reflexivity |].
  split; [reflexivity |]. split; [reflexivity |].
  split; [in_tree Href Hchildren |]. vm_compute. reflexivity.
Qed.

Lemma access_logs_bucket_shared_witness :
  ("cloudfront" ∉ scope_children app_scope) /\
  qa_context !! "env_name" = Some (VStr "qa") /\
  exists self d b,
    ProtectedCloudfrontStack_init app_scope "cloudfront" qa_zone
      "app.example.com" "alb.example.com" qa_context qa_props = Ok self /\
    cdn self = Ok d /\
    child self (log_bucket d) = Some (ABucket b) /\
    lifecycle_rules b
      = [ {| enabled := true; expiration := Duration.days 186 |} ].
Proof.
  split; [exact cloudfront_fresh |]. split; [exact qa_context_env_name |].
  destruct (access_logs_bucket_shared app_scope "cloudfront" qa_zone "app.example.com"
              "alb.example.com" qa_context qa_props (VStr "qa")
              cloudfront_fresh qa_context_env_name)
    as (self & d & b & w & Hinit & Hcdn & _ & Hbucket & _ & _ & Hrules & _).
  exists self, d, b. split; [exact Hinit |]. split; [exact Hcdn |].
  split; [exact Hbucket | exact Hrules].
Defined.

(** X10: the distribution's web ACL is the output "WAFWebACLArn" of the
    remote-outputs construct, which reads the WAF stack; that stack is a
    child deployed to us-east-1 without request logging, with the six
    protections switched on and the bad-bot protection switched off, and the
    distribution depends on it. *)
Theorem web_acl_from_waf_stack (scope : Scope) (construct_id : string)
    (hosted_zone : HostedZone) (domain origin_domain : string)
    (env_context : gmap string value) (kwargs : StackProps) (v : value) :
  construct_id ∉ scope_children scope ->
  env_context !! "env_name" = Some v ->
  exists self d outs o w,
    ProtectedCloudfrontStack_init scope construct_id hosted_zone domain
      origin_domain env_context kwargs = Ok self /\
    cdn self = Ok d /\
    web_acl_id d = Attribute outs "WAFWebACLArn" /\
    child self outs = Some (ARemoteOutputs o) /\
    child self (remote_stack o) = Some (AWafStack w) /\
    dependencies d = [remote_stack o] /\
    region (waf_env w) = Some "us-east-1" /\
    log_requests w = false /\
    size (params w) = 8%nat /\
    Forall (fun name => params w !! name = Some (Literal "True"))
      ["ActivateAWSManagedRulesParam"; "ActivateSqlInjectionProtectionParam";
       "ActivateCrossSiteScriptingProtectionParam";
       "ActivateHttpFloodProtectionParam";
       "ActivateScannersProbesProtectionParam";
       "ActivateReputationListsProtectionParam"] /\
    params w !! "ActivateBadBotProtectionParam" = Some (Literal "False").
Proof.
  intros Hid Hv.
  destruct (ProtectedCloudfrontStack_init_tree scope construct_id
              hosted_zone domain origin_domain env_context kwargs v Hid Hv)
    as (self & r & Hinit & Hr & _ & Href & Hchildren).
  exists self. eexists _, _, _, _. split; [done |].
  split; [in_tree Href Hchildren |]. split; [reflexivity |].
  split; [in_tree Href Hchildren |]. split; [in_tree Href Hchildren |].
  split; [reflexivity |]. split; [reflexivity |]. split; [reflexivity |].
  split; [vm_compute; reflexivity |].
  split; [| vm_compute; reflexivity].
  repeat (constructor; [vm_compute; reflexivity |]). constructor.
Qed.

Lemma web_acl_from_waf_stack_witness :
  ("cloudfront" ∉ scope_children app_scope) /\
  qa_context !! "env_name" = Some (VStr "qa") /\
  exists self d outs o w,
    ProtectedCloudfrontStack_init app_scope "cloudfront" qa_zone
      "app.example.com" "alb.example.com" qa_context qa_props = Ok self /\
    cdn self = Ok d /\
    web_acl_id d = Attribute outs "WAFWebACLArn" /\
    child self outs = Some (ARemoteOutputs o) /\
    child self (remote_stack o) = Some (AWafStack w) /\
    dependencies d = [remote_stack o] /\
    region (waf_env w) = Some "us-east-1".
Proof.
  split; [exact cloudfront_fresh |]. split; [exact qa_context_env_name |].
  destruct (web_acl_from_waf_stack app_scope "cloudfront" qa_zone
              "app.example.com" "alb.example.com" qa_context qa_props
              (VStr "qa") cloudfront_fresh qa_context_env_name)
    as (self & d & outs & o & w & Hinit & Hcdn & Hacl & Houts & Hwaf
        & Hdeps & Hregion & _).
  exists self, d, outs, o, w. split; [exact Hinit |]. split; [exact Hcdn |].
  split; [exact Hacl |]. split; [exact Houts |]. split; [exact Hwaf |].
  split; [exact Hdeps | exact Hregion].
Defined.

(** X11: the distribution serves the domain given and nothing else, under
    a certificate that is a child of the stack, issued for that same domain
    in us-east-1 and validated in the hosted zone given, the zone the A
    record is created in. *)
Theorem certificate_for_the_domain (scope : Scope) (construct_id : string)
    (hosted_zone : HostedZone) (domain origin_domain : string)
    (env_context : gmap string value) (kwargs : StackProps) (v : value) :
  construct_id ∉ scope_children scope ->
  env_context !! "env_name" = Some v ->
  exists self d c record,
    ProtectedCloudfrontStack_init scope construct_id hosted_zone domain
      origin_domain env_context kwargs = Ok self /\
    cdn self = Ok d /\
    domain_names d = [domain] /\
    child self (certificate d) = Some (ACertificate c) /\
    certificate_domain_name c = domain /\
    certificate_region c = "us-east-1" /\
    certificate_hosted_zone c = hosted_zone /\
    records self = [record] /\
    zone record = certificate_hosted_zone c.
Proof.
  intros Hid Hv.
  destruct (ProtectedCloudfrontStack_init_tree scope construct_id
              hosted_zone domain origin_domain env_context kwargs v Hid Hv)
    as (self & r & Hinit & Hr & _ & Href & Hchildren).
  exists self. eexists _, _, _. split; [done |].
  split; [in_tree Href Hchildren |]. split; [reflexivity |].
  split; [in_tree Href Hchildren |]. split; [reflexivity |].
  split; [reflexivity |]. split; [reflexivity |].
  split; [in_tree Href Hchildren | reflexivity].
Qed.

Lemma certificate_for_the_domain_witness :
  ("cloudfront" ∉ scope_children app_scope) /\
  qa_context !! "env_name" = Some (VStr "qa") /\
  exists self d c,
    ProtectedCloudfrontStack_init app_scope "cloudfront" qa_zone
      "app.example.com" "alb.example.com" qa_context qa_props = Ok self /\
    cdn self = Ok d /\
    child self (certificate d) = Some (ACertificate c) /\
    certificate_domain_name c = "app.example.com" /\
    certificate_hosted_zone c = qa_zone.
Proof.
  split; [exact cloudfront_fresh |]. split; [exact qa_context_env_name |].
  destruct (certificate_for_the_domain app_scope "cloudfront" qa_zone "app.example.com"
              "alb.example.com" qa_context qa_props (VStr "qa")
              cloudfront_fresh qa_context_env_name)
    as (self & d & c & record & Hinit & Hcdn & _ & Hcert & Hdomain & _
        & Hzone & _).
  exists self, d, c. split; [exact Hinit |]. split; [exact Hcdn |].
  split; [exact Hcert |]. split; [exact Hdomain | exact Hzone].
Defined.

(** X12: both behaviors of the distribution send requests to the one
    origin at the origin domain given, compress, and redirect HTTP to HTTPS.
    The default one allows every method and forwards everything the viewer
    sent; the one for "/assets/*" allows GET and HEAD only and uses a policy
    created in the stack that forwards the Host header and no cookie or
    query string. *)
Theorem behaviors_share_the_origin (scope : Scope) (construct_id : string)
    (hosted_zone : HostedZone) (domain origin_domain : string)
    (env_context : gmap string value) (kwargs : StackProps) (v : value) :
  construct_id ∉ scope_children scope ->
  env_context !! "env_name" = Some v ->
  exists self d assets pid policy,
    ProtectedCloudfrontStack_init scope construct_id hosted_zone domain
      origin_domain env_context kwargs = Ok self /\
    cdn self = Ok d /\
    behavior d "/assets/*" = Some assets /\
    origin assets = origin (default_behavior d) /\
    origin_domain_name (origin assets) = origin_domain /\
    compress (default_behavior d) = true /\ compress assets = true /\
    viewer_protocol_policy (default_behavior d)
      = ViewerProtocolPolicy.REDIRECT_TO_HTTPS /\
    viewer_protocol_policy assets = ViewerProtocolPolicy.REDIRECT_TO_HTTPS /\
    allowed_methods (default_behavior d) = AllowedMethods.ALLOW_ALL /\
    allowed_methods assets = AllowedMethods.ALLOW_GET_HEAD /\
    origin_request_policy (default_behavior d)
      = OriginRequestPolicy.ALL_VIEWER /\
    origin_request_policy assets = OriginRequestPolicy.created pid /\
    child self pid = Some (AnOriginRequestPolicy policy) /\
    header_behavior policy = OriginRequestHeaderBehavior.allow_list ["Host"] /\
    cookie_behavior policy = OriginRequestCookieBehavior.none /\
    query_string_behavior policy = OriginRequestQueryStringBehavior.none.
Proof.
  intros Hid Hv.
  destruct (ProtectedCloudfrontStack_init_tree scope construct_id
              hosted_zone domain origin_domain env_context kwargs v Hid Hv)
    as (self & r & Hinit & Hr & _ & Href & Hchildren).
  exists self. eexists _, _, _, _. split; [done |].
  split; [in_tree Href Hchildren |]. split; [reflexivity |].
  split; [reflexivity |]. split; [reflexivity |]. split; [reflexivity |].
  split; [reflexivity |]. split; [reflexivity |]. split; [reflexivity |].
  split; [reflexivity |]. split; [reflexivity |]. split; [reflexivity |].
  split; [reflexivity |]. split; [in_tree Href Hchildren |].
  split; [reflexivity |]. split; reflexivity.
Qed.

Lemma behaviors_share_the_origin_witness :
  ("cloudfront" ∉ scope_children app_scope) /\
  qa_context !! "env_name" = Some (VStr "qa") /\
  exists self d assets,
    ProtectedCloudfrontStack_init app_scope "cloudfront" qa_zone
      "app.example.com" "alb.example.com" qa_context qa_props = Ok self /\
    cdn self = Ok d /\
    behavior d "/assets/*" = Some assets /\
    origin_domain_name (origin assets) = "alb.example.com" /\
    allowed_methods assets = AllowedMethods.ALLOW_GET_HEAD.
Proof.
  split; [exact cloudfront_fresh |]. split; [exact qa_context_env_name |].
  destruct (behaviors_share_the_origin app_scope "cloudfront" qa_zone "app.example.com"
              "alb.example.com" qa_context qa_props (VStr "qa")
              cloudfront_fresh qa_context_env_name)
    as (self & d & assets & pid & policy & Hinit & Hcdn & Hassets & _
        & Horigin & _ & _ & _ & _ & _ & Hmethods & _).
  exists self, d, assets. split; [exact Hinit |]. split; [exact Hcdn |].
  split; [exact Hassets |]. split; [exact Horigin | exact Hmethods].
Defined.

Lemma append_length (a b : string) :
  String.length (a +:+ b) = (String.length a + String.length b)%nat.
Proof.
  induction a as [|x a IH]; [done |].
  change (S (String.length (a +:+ b))
          = S (String.length a + String.length b)).
  by rewrite IH.
Qed.

(** [s.split(c)[0]] is the first label and nothing else. *)
Lemma index_first_label (c : ascii) (s r : string) :
  index (split c s) 0 = Ok r <-> first_label c s r.
Proof.
  rewrite index_first, <- head_split.
  destruct (head (split c s)) as [w|]; simpl; split; congruence.
Qed.

(** X13: the name of the A record has no '.'; it is the whole domain when
    the domain has no '.', and otherwise what comes before the first '.',
    whatever follows it: the empty string for a domain that starts with
    '.', and the same name for two domains with the same first label. *)
Theorem record_name_edge_cases (scope : Scope) (construct_id : string)
    (hosted_zone : HostedZone) (domain origin_domain : string)
    (env_context : gmap string value) (kwargs : StackProps) (v : value) :
  construct_id ∉ scope_children scope ->
  env_context !! "env_name" = Some v ->
  exists self record,
    ProtectedCloudfrontStack_init scope construct_id hosted_zone domain
      origin_domain env_context kwargs = Ok self /\
    records self = [record] /\
    contains dot (record_name record) = false /\
    (contains dot domain = false -> record_name record = domain) /\
    (forall label rest : string,
       contains dot label = false ->
       domain = label +:+ "." +:+ rest ->
       record_name record = label).
Proof.
  intros Hid Hv.
  destruct (ProtectedCloudfrontStack_init_tree scope construct_id
              hosted_zone domain origin_domain env_context kwargs v Hid Hv)
    as (self & r & Hinit & Hr & _ & Href & Hchildren).
  exists self. eexists. split; [done |].
  split; [in_tree Href Hchildren |]. simpl.
  split; [by apply index_first_label in Hr as [? _] |].
  split.
  - intros Hfree.
    assert (index (split dot domain) 0 = Ok domain) as Hwhole.
    { apply index_first_label. split; [done | by left]. }
    rewrite Hr in Hwhole. by injection Hwhole.
  - intros label rest Hlabel ->.
    assert (index (split dot (label +:+ "." +:+ rest)) 0 = Ok label)
      as Hfirst.
    { apply index_first_label. split; [done |]. right. by exists rest. }
    rewrite Hr in Hfirst. by injection Hfirst.
Qed.

Lemma record_name_edge_cases_witness :
  ("cloudfront" ∉ scope_children app_scope) /\
  qa_context !! "env_name" = Some (VStr "qa") /\
  (exists self record,
     ProtectedCloudfrontStack_init app_scope "cloudfront" qa_zone
       "localhost" "alb.example.com" qa_context qa_props = Ok self /\
     records self = [record] /\ record_name record = "localhost") /\
  (exists self record,
     ProtectedCloudfrontStack_init app_scope "cloudfront" qa_zone
       ".example.com" "alb.example.com" qa_context qa_props = Ok self /\
     records self = [record] /\ record_name record = "").
Proof.
  split; [exact cloudfront_fresh |]. split; [exact qa_context_env_name |].
  split.
  - destruct (record_name_edge_cases app_scope "cloudfront" qa_zone
                "localhost" "alb.example.com" qa_context qa_props (VStr "qa")
                cloudfront_fresh qa_context_env_name)
      as (self & record & Hinit & Hrecords & _ & Hwhole & _).
    exists self, record. split; [exact Hinit |]. split; [exact Hrecords |].
    apply Hwhole. reflexivity.
  - destruct (record_name_edge_cases app_scope "cloudfront" qa_zone
                ".example.com" "alb.example.com" qa_context qa_props
                (VStr "qa") cloudfront_fresh qa_context_env_name)
      as (self & record & Hinit & Hrecords & _ & _ & Hlabel).
    exists self, record. split; [exact Hinit |]. split; [exact Hrecords |].
    apply (Hlabel "" "example.com"); reflexivity.
Defined.

(** X14: the secret-header value does not tell apart an environment
    ["a-b"] with a stack named [c] from an environment [a] with a stack
    named ["b-c"]: the two stacks get the same value. *)
Theorem secret_header_collision (scope : Scope) (construct_id : string)
    (hosted_zone : HostedZone) (domain origin_domain : string)
    (env_context1 env_context2 : gmap string value) (a b c : string) :
  construct_id ∉ scope_children scope ->
  env_context1 !! "env_name" = Some (VStr (a +:+ "-" +:+ b)) ->
  env_context2 !! "env_name" = Some (VStr a) ->
  exists self1 self2 h,
    ProtectedCloudfrontStack_init scope construct_id hosted_zone domain
      origin_domain env_context1
      {| props_stack_name := c; props_env := None |} = Ok self1 /\
    ProtectedCloudfrontStack_init scope construct_id hosted_zone domain
      origin_domain env_context2
      {| props_stack_name := b +:+ "-" +:+ c; props_env := None |}
      = Ok self2 /\
    env_name self1 <> env_name self2 /\
    stack_name self1 <> stack_name self2 /\
    secretHeaderValue self1 = Ok h /\
    secretHeaderValue self2 = Ok h.
Proof.
  intros Hid Hv1 Hv2.
  destruct (ProtectedCloudfrontStack_init_Ok scope construct_id hosted_zone
              domain origin_domain env_context1
              {| props_stack_name := c; props_env := None |} _ Hid Hv1)
    as (self1 & _ & _ & Hinit1 & Hname1 & Henv1 & Hheader1 & _).
  destruct (ProtectedCloudfrontStack_init_Ok scope construct_id hosted_zone
              domain origin_domain env_context2
              {| props_stack_name := b +:+ "-" +:+ c; props_env := None |}
              _ Hid Hv2)
    as (self2 & _ & _ & Hinit2 & Hname2 & Henv2 & Hheader2 & _).
  exists self1, self2, (a +:+ "-" +:+ b +:+ "-" +:+ c).
  split; [done |]. split; [done |]. split.
  { rewrite Henv1, Henv2. intros [= Heq].
    apply (f_equal String.length) in Heq.
    rewrite !append_length in Heq. simpl in Heq. lia. }
  split.
  { rewrite Hname1, Hname2. simpl. intros Heq.
    apply (f_equal String.length) in Heq.
    rewrite !append_length in Heq. simpl in Heq. lia. }
  unfold secretHeaderValue. rewrite Hheader1, Hheader2. simpl.
  split; [| done]. f_equal. rewrite !append_assoc. done.
Qed.

Lemma secret_header_collision_witness :
  ("cloudfront" ∉ scope_children app_scope) /\
  (display [("env_name", VStr "qa-eu")] : gmap string value) !! "env_name"
    = Some (VStr ("qa" +:+ "-" +:+ "eu")) /\
  qa_context !! "env_name" = Some (VStr "qa") /\
  exists self1 self2,
    ProtectedCloudfrontStack_init app_scope "cloudfront" qa_zone
      "app.example.com" "alb.example.com"
      (display [("env_name", VStr "qa-eu")])
      {| props_stack_name := "web"; props_env := None |} = Ok self1 /\
    ProtectedCloudfrontStack_init app_scope "cloudfront" qa_zone
      "app.example.com" "alb.example.com" qa_context
      {| props_stack_name := "eu" +:+ "-" +:+ "web"; props_env := None |}
      = Ok self2 /\
    secretHeaderValue self1 = secretHeaderValue self2.
Proof.
  assert ((display [("env_name", VStr "qa-eu")] : gmap string value)
            !! "env_name" = Some (VStr ("qa" +:+ "-" +:+ "eu"))) as Hv1.
  { vm_compute. reflexivity. }
  split; [exact cloudfront_fresh |]. split; [exact Hv1 |].
  split; [exact qa_context_env_name |].
  destruct (secret_header_collision app_scope "cloudfront" qa_zone
              "app.example.com" "alb.example.com"
              (display [("env_name", VStr "qa-eu")]) qa_context
              "qa" "eu" "web" cloudfront_fresh Hv1 qa_context_env_name)
    as (self1 & self2 & h & Hinit1 & Hinit2 & _ & _ & Hh1 & Hh2).
  exists self1, self2. split; [exact Hinit1 |]. split; [exact Hinit2 |].
  rewrite Hh1, Hh2. reflexivity.
Defined.

End CloudfrontMore.
